(** * Dynamic pricing for grocery products: a model of [backend/app.py]

    The pricing service keeps one process-wide table [df] (read from a CSV
    file) and answers requests from it.  This development embeds the
    request handlers of [backend/app.py] as functions over that table and
    establishes the properties claimed about them, then further
    properties of the handlers and of the feature columns that
    [backend/model.py] builds for training.

    Conventions of the embedding.

    - A float is a rational, +inf, -inf or nan ([np_float]), and the
      operations on floats are taken exactly: binary rounding error is
      not modelled.  Division follows numpy: dividing by zero does not
      raise, it yields an infinity or nan.
    - A cell of an integer column is a numpy int64.  It is read as a [Z]
      of the range of int64, and a sum formed on such cells ([stock + 1])
      wraps around as numpy's does when it is turned into a float
      ([of_int]).
    - A call that may raise returns a [result]; [HTTPException] carries
      its status code and detail string.
    - The table is state: a handler that assigns to [df] returns the new
      table next to its answer.
    - Strings are sequences of bytes (UTF-8); [str.lower] is modelled on
      the letters A..Z, the other bytes are left as they are. *)

From Stdlib Require Import ZArith QArith Qround Qabs Lqa Lia.
From Stdlib Require Import List String Ascii Bool.
From Stdlib Require Import Sorting.Sorted Sorting.Permutation.
From Stdlib Require Import OrdersEx.
From Stdlib Require DecimalString.
Import ListNotations.

Local Open Scope string_scope.
Local Open Scope list_scope.
Local Open Scope Z_scope.
Local Open Scope Q_scope.

(** ** Floats *)

Inductive np_float : Type :=
| Finite (q : Q)
| PosInf
| NegInf
| NaN.

(** The int64 that holds an integer: its value modulo 2^64, in the range
    from -2^63 to 2^63 - 1.  This is what numpy keeps of a sum that
    overflows. *)
Definition int64_wrap (z : Z) : Z :=
  ((z + 9223372036854775808) mod 18446744073709551616
   - 9223372036854775808)%Z.

Arguments int64_wrap : simpl never.

(** The float of an integer computed on int64: the integer wraps around
    first.  An integer of the range of int64 is taken as it is. *)
Definition of_int (z : Z) : np_float := Finite (inject_Z (int64_wrap z)).

Definition isnan (x : np_float) : bool :=
  match x with NaN => true | _ => false end.

Definition isfinite (x : np_float) : bool :=
  match x with Finite _ => true | _ => false end.

(** The infinity whose sign is that of a comparison with zero; the product
    or quotient is nan when that comparison is [Eq]. *)
Definition signed_inf (c : comparison) : np_float :=
  match c with Gt => PosInf | Lt => NegInf | Eq => NaN end.

Definition fneg (x : np_float) : np_float :=
  match x with
  | Finite q => Finite (- q)
  | PosInf => NegInf
  | NegInf => PosInf
  | NaN => NaN
  end.

Definition fadd (x y : np_float) : np_float :=
  match x, y with
  | NaN, _ | _, NaN => NaN
  | Finite a, Finite b => Finite (a + b)
  | PosInf, NegInf | NegInf, PosInf => NaN
  | PosInf, _ | _, PosInf => PosInf
  | NegInf, _ | _, NegInf => NegInf
  end.

Definition fsub (x y : np_float) : np_float := fadd x (fneg y).

Definition fmul (x y : np_float) : np_float :=
  match x, y with
  | NaN, _ | _, NaN => NaN
  | Finite a, Finite b => Finite (a * b)
  | PosInf, Finite b | Finite b, PosInf => signed_inf (b ?= 0)
  | NegInf, Finite b | Finite b, NegInf => signed_inf (0 ?= b)
  | PosInf, PosInf | NegInf, NegInf => PosInf
  | PosInf, NegInf | NegInf, PosInf => NegInf
  end.

(** True division.  A zero divisor is the positive zero in every quotient
    of [app.py] (it comes from an integer or from a sum with 1). *)
Definition fdiv (x y : np_float) : np_float :=
  match x, y with
  | NaN, _ | _, NaN => NaN
  | Finite a, Finite b =>
      match b ?= 0 with
      | Eq => signed_inf (a ?= 0)
      | _ => Finite (a / b)
      end
  | Finite _, _ => Finite 0
  | PosInf, Finite b => match b ?= 0 with Lt => NegInf | _ => PosInf end
  | NegInf, Finite b => match b ?= 0 with Lt => PosInf | _ => NegInf end
  | _, _ => NaN
  end.

(** [x > y]; false as soon as one side is nan. *)
Definition fgt (x y : np_float) : bool :=
  match x, y with
  | NaN, _ | _, NaN => false
  | Finite a, Finite b => match a ?= b with Gt => true | _ => false end
  | PosInf, PosInf | NegInf, _ | Finite _, PosInf => false
  | PosInf, _ | Finite _, NegInf => true
  end.

Definition flt (x y : np_float) : bool := fgt y x.

(** [x <= y]; false as soon as one side is nan. *)
Definition fle (x y : np_float) : bool :=
  match x, y with
  | NaN, _ | _, NaN => false
  | _, _ => negb (fgt x y)
  end.

(** Equality of values: rationals are compared by [Qeq]. *)
Definition feq (x y : np_float) : Prop :=
  match x, y with
  | Finite a, Finite b => a == b
  | PosInf, PosInf | NegInf, NegInf | NaN, NaN => True
  | _, _ => False
  end.

(** [np.clip(x, lo, hi)]: the minimum with [hi] of the maximum with [lo],
    where a nan first argument is returned as it is. *)
Definition np_max (a b : np_float) : np_float :=
  if isnan a then a else if fgt a b then a else b.

Definition np_min (a b : np_float) : np_float :=
  if isnan a then a else if flt a b then a else b.

Definition np_clip (x lo hi : np_float) : np_float :=
  np_min (np_max x lo) hi.

(** Rounding to the nearest integer, ties to the even one. *)
Definition rint (q : Q) : Z :=
  let f := Qfloor q in
  match Qcompare (q - inject_Z f)%Q (1 # 2)%Q with
  | Lt => f
  | Gt => (f + 1)%Z
  | Eq => if Z.even f then f else (f + 1)%Z
  end.

Definition round2_Q (q : Q) : Q := inject_Z (rint (q * 100)) / 100.

(** [round(x, 2)] on a numpy float. *)
Definition round2 (x : np_float) : np_float :=
  match x with
  | Finite q => Finite (round2_Q q)
  | _ => x
  end.

(** ** Strings *)

Definition lower_char (c : ascii) : ascii :=
  let n := nat_of_ascii c in
  if ((65 <=? n) && (n <=? 90))%nat then ascii_of_nat (n + 32) else c.

Definition upper_char (c : ascii) : ascii :=
  let n := nat_of_ascii c in
  if ((97 <=? n) && (n <=? 122))%nat then ascii_of_nat (n - 32) else c.

(** [str.lower] on the letters A..Z.  Bytes of characters outside ASCII
    are left as they are: a letter outside ASCII that has a lower case
    is not lowered here. *)
Fixpoint str_lower (s : string) : string :=
  match s with
  | EmptyString => EmptyString
  | String c s' => String (lower_char c) (str_lower s')
  end.

(** [str(n)] for an integer, as an f-string prints it. *)
Definition str_of_int (z : Z) : string :=
  DecimalString.NilZero.string_of_int (Z.to_int z).

(** ** Exceptions *)

Inductive exn : Type :=
| HTTPException (status_code : Z) (detail : string)
| TypeError (msg : string)
| PredictorError.

Inductive result (A : Type) : Type :=
| Ok (a : A)
| Raise (e : exn).

Arguments Ok {A} a.
Arguments Raise {A} e.

Definition bind {A B : Type} (m : result A) (k : A -> result B) : result B :=
  match m with
  | Ok a => k a
  | Raise e => Raise e
  end.

Notation "x <- m ;; k" := (bind m (fun x => k))
  (at level 61, m at next level, right associativity).

(** A loop that appends one item per element and stops at the first
    exception. *)
Fixpoint for_each {A B : Type} (f : A -> result B) (l : list A)
  : result (list B) :=
  match l with
  | [] => Ok []
  | a :: l' =>
      b <- f a ;;
      bs <- for_each f l' ;;
      Ok (b :: bs)
  end.

(** ** The table *)

(** One line of [groceries.csv], cell by cell. *)
Record Row : Type := mkRow {
  product_id_cell : Z;
  name : string;
  category : string;
  base_price : Q;
  stock_cell : Z;
  sales_7_cell : Z;
  sales_30_cell : Z;
  day_cell : Z
}.

(** The integer columns hold int64: a cell is read as the int64 it holds,
    which is the number written when that number is in the range. *)
Definition product_id (r : Row) : Z := int64_wrap (product_id_cell r).
Definition stock (r : Row) : Z := int64_wrap (stock_cell r).
Definition sales_7 (r : Row) : Z := int64_wrap (sales_7_cell r).
Definition sales_30 (r : Row) : Z := int64_wrap (sales_30_cell r).
Definition day (r : Row) : Z := int64_wrap (day_cell r).

(** The global [df]: the lines of the file and, once [get_insights] has
    assigned it, the column ['demand_ratio']. *)
Record DataFrame : Type := mkDataFrame {
  rows : list Row;
  demand_ratio : option (list np_float)
}.

Definition read_csv (l : list Row) : DataFrame := mkDataFrame l None.

(** [series.max()]: nan on an empty column. *)
Definition series_max (col : list Z) : np_float :=
  match col with
  | [] => NaN
  | z :: col' => of_int (fold_left Z.max col' z)
  end.

Definition series_sum (col : list Z) : Z := fold_left Z.add col 0%Z.

Definition sum_Q (col : list Q) : Q := fold_left Qplus col 0.

(** [series.mean()] of a float column: nan on an empty one. *)
Definition series_mean (col : list Q) : np_float :=
  match col with
  | [] => NaN
  | _ => Finite (sum_Q col / inject_Z (Z.of_nat (List.length col)))
  end.

(** ** Pricing *)

(** The six model inputs, in the order of the array handed to the scaler. *)
Record FeatureVector : Type := mkFeatures {
  f_demand_ratio : np_float;
  f_inventory_level : np_float;
  f_sales_trend : np_float;
  f_popularity : np_float;
  f_scarcity : np_float;
  f_day : np_float
}.

(** The pair of a loaded scaler and model: [scaler.transform] followed by
    [model.predict(...)[0]], which give a price or raise an exception of
    their own.  In the handlers, [None] for the model stands for the two
    globals left at [None] when the pickle files are missing. *)
Definition Predictor : Type := FeatureVector -> option np_float.

Inductive DemandLevel : Type := High | Medium | Low.

Module Pricing.
Record t : Type := mk {
  base_price : np_float;
  dynamic_price : np_float;
  discount_percent : np_float;
  demand_level : DemandLevel;
  demand_ratio : np_float;
  stock : Z
}.
End Pricing.

(** Lines 76-80 and 84 of [calculate_dynamic_price].  The sums
    [stock + 1] and [sales_7 + 1] are sums of int64: [of_int] wraps
    them. *)
Definition derive_features (df : DataFrame) (product : Row) : FeatureVector :=
  let bp := Finite (base_price product) in
  {| f_demand_ratio :=
       fdiv (of_int (sales_7 product)) (of_int (stock product + 1));
     f_inventory_level :=
       fdiv (of_int (stock product)) (series_max (map stock (rows df)));
     f_sales_trend :=
       fdiv (of_int (sales_30 product)) (of_int (sales_7 product + 1));
     f_popularity :=
       fdiv (of_int (sales_30 product))
            (fadd (fmul bp (of_int (stock product))) (of_int 1));
     f_scarcity := fdiv (of_int 1) (of_int (stock product + 1));
     f_day := of_int (day product) |}.

(** Lines 83-89: the price before clipping. *)
Definition predict_price (model : option Predictor) (df : DataFrame)
  (product : Row) : result np_float :=
  let fv := derive_features df product in
  match model with
  | Some predictor =>
      match predictor fv with
      | Some predicted_price => Ok predicted_price
      | None => Raise PredictorError
      end
  | None =>
      Ok (fmul (Finite (base_price product))
            (fsub (fadd (of_int 1) (fmul (f_demand_ratio fv) (Finite 0.3)))
                  (fmul (f_inventory_level fv) (Finite 0.2))))
  end.

(** Line 92. *)
Definition clip_price (bp : Q) (predicted_price : np_float) : np_float :=
  np_clip predicted_price
    (fmul (Finite bp) (Finite 0.5)) (fmul (Finite bp) (Finite 1.5)).

(** Lines 98-103. *)
Definition classify (demand_ratio : np_float) : DemandLevel :=
  if fgt demand_ratio (of_int 2) then High
  else if fgt demand_ratio (of_int 1) then Medium
  else Low.

(** Lines 72-112, for the line [product] picked by [iloc[0]]. *)
Definition price_product (model : option Predictor) (df : DataFrame)
  (product : Row) : result Pricing.t :=
  let bp := Finite (base_price product) in
  let demand_ratio := f_demand_ratio (derive_features df product) in
  raw <- predict_price model df product ;;
  let predicted_price := clip_price (base_price product) raw in
  let discount_percent :=
    fmul (fdiv (fsub predicted_price bp) bp) (of_int 100) in
  Ok {| Pricing.base_price := bp;
        Pricing.dynamic_price := round2 predicted_price;
        Pricing.discount_percent := round2 discount_percent;
        Pricing.demand_level := classify demand_ratio;
        Pricing.demand_ratio := round2 demand_ratio;
        Pricing.stock := stock product |}.

(** [df[df['product_id'] == product_id]] *)
Definition select_product (df : DataFrame) (pid : Z) : list Row :=
  filter (fun r => (product_id r =? pid)%Z) (rows df).

Definition calculate_dynamic_price (model : option Predictor)
  (df : DataFrame) (pid : Z) : result (option Pricing.t) :=
  match select_product df pid with
  | [] => Ok None
  | product :: _ =>
      pricing <- price_product model df product ;;
      Ok (Some pricing)
  end.

(** ** Product endpoints *)

Module Product.
Record t : Type := mk {
  product_id : Z;
  name : string;
  category : string;
  base_price : np_float;
  stock : Z;
  dynamic_price : np_float;
  discount_percent : np_float;
  demand_level : DemandLevel
}.
End Product.

Module Detail.
Record t : Type := mk {
  product_id : Z;
  name : string;
  category : string;
  base_price : np_float;
  dynamic_price : np_float;
  discount_percent : np_float;
  demand_level : DemandLevel;
  demand_ratio : np_float;
  stock : Z;
  sales_7_days : Z;
  sales_30_days : Z
}.
End Detail.

(** The loop shared by [get_all_products] and [get_products_by_category]:
    each line is priced through its [product_id], and a line is appended
    when the pricing is not [None]. *)
Fixpoint price_rows (model : option Predictor) (df : DataFrame)
  (l : list Row) : result (list Product.t) :=
  match l with
  | [] => Ok []
  | row :: l' =>
      pricing <- calculate_dynamic_price model df (product_id row) ;;
      products <- price_rows model df l' ;;
      Ok match pricing with
         | Some pr =>
             {| Product.product_id := product_id row;
                Product.name := name row;
                Product.category := category row;
                Product.base_price := Pricing.base_price pr;
                Product.stock := Pricing.stock pr;
                Product.dynamic_price := Pricing.dynamic_price pr;
                Product.discount_percent := Pricing.discount_percent pr;
                Product.demand_level := Pricing.demand_level pr |}
             :: products
         | None => products
         end
  end.

Definition get_all_products (model : option Predictor) (df : DataFrame)
  : result (list Product.t) :=
  price_rows model df (rows df).

Definition get_product (model : option Predictor) (df : DataFrame)
  (pid : Z) : result Detail.t :=
  match select_product df pid with
  | [] =>
      Raise (HTTPException 404
               ("Product " ++ str_of_int pid ++ " not found")%string)
  | product :: _ =>
      pricing <- calculate_dynamic_price model df pid ;;
      match pricing with
      | None => Raise (TypeError "'NoneType' object is not subscriptable")
      | Some pr =>
          Ok {| Detail.product_id := product_id product;
                Detail.name := name product;
                Detail.category := category product;
                Detail.base_price := Pricing.base_price pr;
                Detail.dynamic_price := Pricing.dynamic_price pr;
                Detail.discount_percent := Pricing.discount_percent pr;
                Detail.demand_level := Pricing.demand_level pr;
                Detail.demand_ratio := Pricing.demand_ratio pr;
                Detail.stock := Pricing.stock pr;
                Detail.sales_7_days := sales_7 product;
                Detail.sales_30_days := sales_30 product |}
      end
  end.

(** [df[df['category'].str.lower() == category.lower()]] *)
Definition select_category (df : DataFrame) (cat : string) : list Row :=
  filter (fun r => String.eqb (str_lower (category r)) (str_lower cat))
    (rows df).

Definition get_products_by_category (model : option Predictor)
  (df : DataFrame) (cat : string) : result (list Product.t) :=
  match select_category df cat with
  | [] =>
      Raise (HTTPException 404 ("Category " ++ cat ++ " not found")%string)
  | products_in_category => price_rows model df products_in_category
  end.

(** ** Insights *)

(** A line of a frame with its index label and its ['demand_ratio']. *)
Record Labelled : Type := mkLabelled {
  label : nat;
  line : Row;
  ratio : np_float
}.

Fixpoint label_from (i : nat) (l : list Row) (col : list np_float)
  : list Labelled :=
  match l, col with
  | r :: l', x :: col' => mkLabelled i r x :: label_from (S i) l' col'
  | _, _ => []
  end.

(** Stable sort by decreasing key: a line moves in front of the lines of
    strictly smaller or equal key that follow it, and behind none. *)
Fixpoint insert_desc (x : Labelled) (l : list Labelled) : list Labelled :=
  match l with
  | [] => [x]
  | y :: l' =>
      if fgt (ratio y) (ratio x) then y :: insert_desc x l' else x :: l
  end.

Definition sort_desc (l : list Labelled) : list Labelled :=
  fold_right insert_desc [] l.

(** [frame.nlargest(n, 'demand_ratio')] with the default [keep='first']:
    the lines whose key is not nan by decreasing key, the first
    occurrence first among equal keys, then the lines whose key is nan;
    the first [n] of them. *)
Definition nlargest (n : nat) (frame : list Labelled) : list Labelled :=
  let dropped := filter (fun x => negb (isnan (ratio x))) frame in
  let nan_index := filter (fun x => isnan (ratio x)) frame in
  firstn n (sort_desc dropped ++ nan_index).

Module TopDemand.
Record t : Type := mk {
  product_id : Z;
  name : string;
  demand_ratio : np_float
}.
End TopDemand.

Module LowStock.
Record t : Type := mk {
  product_id : Z;
  name : string;
  stock : Z
}.
End LowStock.

Module CategoryStats.
Record t : Type := mk {
  product_count : Z;
  base_price : np_float;
  stock : Z;
  sales_7 : Z
}.
End CategoryStats.

Module Insights.
Record t : Type := mk {
  total_products : Z;
  total_stock : Z;
  total_sales_7days : Z;
  total_sales_30days : Z;
  average_price : np_float;
  top_demand_products : list TopDemand.t;
  low_stock_alerts : list LowStock.t;
  category_statistics : list (string * CategoryStats.t)
}.
End Insights.

(** The group keys of [groupby('category')]: distinct, in increasing
    order. *)
Fixpoint insert_key (k : string) (l : list string) : list string :=
  match l with
  | [] => [k]
  | k' :: l' =>
      match String.compare k k' with
      | Lt => k :: l
      | Eq => l
      | Gt => k' :: insert_key k l'
      end
  end.

Definition group_keys (df : DataFrame) : list string :=
  fold_right insert_key [] (map category (rows df)).

Definition aggregate (group : list Row) : CategoryStats.t :=
  {| CategoryStats.product_count := Z.of_nat (List.length group);
     CategoryStats.base_price := series_mean (map base_price group);
     CategoryStats.stock := series_sum (map stock group);
     CategoryStats.sales_7 := series_sum (map sales_7 group) |}.

(** Line 230: the column assigned to the global table. *)
Definition demand_ratio_column (df : DataFrame) : list np_float :=
  map (fun r => fdiv (of_int (sales_7 r)) (of_int (stock r + 1))) (rows df).

(** The ten lines picked on line 231, with their index labels. *)
Definition top_demand_lines (df : DataFrame) : list Labelled :=
  nlargest 10 (label_from 0 (rows df) (demand_ratio_column df)).

(** [get_insights] assigns the column ['demand_ratio'] of the global
    table, then reads the table: the result is the table after the call
    and the payload.  (On a table without any line the columns have no
    numeric type and [nlargest] raises after the assignment; the payload
    below is that of a table with lines.) *)
Definition get_insights (df : DataFrame) : DataFrame * Insights.t :=
  let df := {| rows := rows df;
               demand_ratio := Some (demand_ratio_column df) |} in
  let top_demand :=
    map (fun x => {| TopDemand.product_id := product_id (line x);
                     TopDemand.name := name (line x);
                     TopDemand.demand_ratio := ratio x |})
        (top_demand_lines df) in
  let low_stock :=
    map (fun r => {| LowStock.product_id := product_id r;
                     LowStock.name := name r;
                     LowStock.stock := stock r |})
        (filter (fun r => (stock r <? 10)%Z) (rows df)) in
  let category_stats :=
    map (fun k =>
           (k, aggregate (filter (fun r => String.eqb (category r) k)
                            (rows df))))
        (group_keys df) in
  (df,
   {| Insights.total_products := Z.of_nat (List.length (rows df));
      Insights.total_stock := series_sum (map stock (rows df));
      Insights.total_sales_7days := series_sum (map sales_7 (rows df));
      Insights.total_sales_30days := series_sum (map sales_30 (rows df));
      Insights.average_price :=
        round2 (series_mean (map base_price (rows df)));
      Insights.top_demand_products := top_demand;
      Insights.low_stock_alerts := low_stock;
      Insights.category_statistics := category_stats |}).

(** ** Categories *)

Module Categories.
Record t : Type := mk {
  categories : list string;
  total : Z
}.
End Categories.

(** [series.unique()]: the distinct values, in the order in which they
    first appear. *)
Fixpoint unique (l : list string) : list string :=
  match l with
  | [] => []
  | x :: l' => x :: filter (fun y => negb (String.eqb x y)) (unique l')
  end.

(** [sorted(l)] on strings: a stable sort by increasing order. *)
Fixpoint insert_str (x : string) (l : list string) : list string :=
  match l with
  | [] => [x]
  | y :: l' => if String.ltb y x then y :: insert_str x l' else x :: l
  end.

Definition sorted (l : list string) : list string :=
  fold_right insert_str [] l.

Definition get_categories (df : DataFrame) : Categories.t :=
  let categories := unique (map category (rows df)) in
  {| Categories.categories := sorted categories;
     Categories.total := Z.of_nat (List.length categories) |}.

(** ** Direct prediction *)

Module PricePrediction.

Record PricingRequest : Type := mkRequest {
  demand_ratio : np_float;
  inventory_level : np_float;
  sales_trend : np_float;
  popularity : np_float;
  scarcity : np_float;
  day : Z
}.

Record response : Type := mkResponse {
  predicted_price : np_float;
  confidence : string
}.

(** The handler of [/api/price-prediction]: the features of the request
    go to the scaler and the model as they are. *)
Definition predict_price (model : option Predictor)
  (request : PricingRequest) : result response :=
  match model with
  | None => Raise (HTTPException 500 "Model not loaded")
  | Some predictor =>
      match predictor
              {| f_demand_ratio := demand_ratio request;
                 f_inventory_level := inventory_level request;
                 f_sales_trend := sales_trend request;
                 f_popularity := popularity request;
                 f_scarcity := scarcity request;
                 f_day := of_int (day request) |} with
      | Some predicted_price =>
          Ok {| predicted_price := round2 predicted_price;
                confidence := "high" |}
      | None => Raise PredictorError
      end
  end.

End PricePrediction.

(** ** Training features ([model.py]) *)

(** Arithmetic on whole columns, line by line. *)
Fixpoint series_div (a b : list np_float) : list np_float :=
  match a, b with
  | x :: a', y :: b' => fdiv x y :: series_div a' b'
  | _, _ => []
  end.

Definition series_div_scalar (a : list np_float) (y : np_float)
  : list np_float :=
  map (fun x => fdiv x y) a.

Definition scalar_div_series (x : np_float) (b : list np_float)
  : list np_float :=
  map (fun y => fdiv x y) b.

Fixpoint series_mul (a b : list np_float) : list np_float :=
  match a, b with
  | x :: a', y :: b' => fmul x y :: series_mul a' b'
  | _, _ => []
  end.

Definition series_add_scalar (a : list np_float) (y : np_float)
  : list np_float :=
  map (fun x => fadd x y) a.

Definition int_series_add (a : list Z) (k : Z) : list Z :=
  map (fun x => (x + k)%Z) a.

Definition as_float (a : list Z) : list np_float := map of_int a.

(** The lines of a frame made of six columns. *)
Fixpoint frame6 (c1 c2 c3 c4 c5 c6 : list np_float) : list FeatureVector :=
  match c1, c2, c3, c4, c5, c6 with
  | x1 :: c1', x2 :: c2', x3 :: c3', x4 :: c4', x5 :: c5', x6 :: c6' =>
      mkFeatures x1 x2 x3 x4 x5 x6 :: frame6 c1' c2' c3' c4' c5' c6'
  | _, _, _, _, _, _ => []
  end.

(** Lines 15-22 of [model.py]: the five feature columns and the frame [X]
    the scaler and the model are fitted on. *)
Definition training_features (df : DataFrame) : list FeatureVector :=
  let col_stock := map stock (rows df) in
  let col_sales_7 := map sales_7 (rows df) in
  let col_sales_30 := map sales_30 (rows df) in
  let col_base_price := map (fun r => Finite (base_price r)) (rows df) in
  let col_day := map day (rows df) in
  let demand_ratio :=
    series_div (as_float col_sales_7) (as_float (int_series_add col_stock 1)) in
  let inventory_level :=
    series_div_scalar (as_float col_stock) (series_max col_stock) in
  let sales_trend :=
    series_div (as_float col_sales_30)
      (as_float (int_series_add col_sales_7 1)) in
  let popularity :=
    series_div (as_float col_sales_30)
      (series_add_scalar (series_mul col_base_price (as_float col_stock))
         (of_int 1)) in
  let scarcity :=
    scalar_div_series (of_int 1) (as_float (int_series_add col_stock 1)) in
  frame6 demand_ratio inventory_level sales_trend popularity scarcity
    (as_float col_day).

(** The target column [y] of the training. *)
Definition training_target (df : DataFrame) : list np_float :=
  map (fun r => Finite (base_price r)) (rows df).

(** ** Notions used in the statements *)

(** [0.5 * base_price <= dynamic_price <= 1.5 * base_price], read on the
    fields of a pricing result. *)
Definition within_bounds (pr : Pricing.t) : bool :=
  fle (fmul (Finite 0.5) (Pricing.base_price pr)) (Pricing.dynamic_price pr)
  && fle (Pricing.dynamic_price pr)
       (fmul (Finite 1.5) (Pricing.base_price pr)).

(** [m] is the largest stock of the table. *)
Definition is_max_stock (df : DataFrame) (m : Z) : Prop :=
  In m (map stock (rows df)) /\
  Forall (fun s => (s <= m)%Z) (map stock (rows df)).

(** An integer as the number it is, as the formulas of the data model
    read it. *)
Definition real_of (z : Z) : np_float := Finite (inject_Z z).

(** The feature vector as the data model defines it, from a line and the
    largest stock of the table: the sums and quotients are those of the
    numbers, without wrap-around. *)
Definition spec_features (p : Row) (maxStock : Z) : FeatureVector :=
  {| f_demand_ratio := fdiv (real_of (sales_7 p)) (real_of (stock p + 1));
     f_inventory_level := fdiv (real_of (stock p)) (real_of maxStock);
     f_sales_trend := fdiv (real_of (sales_30 p)) (real_of (sales_7 p + 1));
     f_popularity :=
       fdiv (real_of (sales_30 p))
         (Finite (base_price p * inject_Z (stock p) + 1));
     f_scarcity := fdiv (real_of 1) (real_of (stock p + 1));
     f_day := real_of (day p) |}.

(** The fallback price as the design states it. *)
Definition spec_fallback (bp : Q) (demand_ratio inventory_level : np_float)
  : np_float :=
  fmul (Finite bp)
    (fsub (fadd (of_int 1) (fmul (Finite 0.3) demand_ratio))
          (fmul (Finite 0.2) inventory_level)).

(** [x] comes before [y] in a list by decreasing demand ratio: a larger
    ratio first, the smaller label first among equal ratios, and a ratio
    that is a number before one that is nan. *)
Definition before (x y : Labelled) : Prop :=
  fgt (ratio x) (ratio y) = true \/
  (feq (ratio x) (ratio y) /\ (label x < label y)%nat) \/
  (isnan (ratio x) = false /\ isnan (ratio y) = true).

(** [a >= b] between numbers: greater or equal. *)
Definition at_least (a b : np_float) : Prop := fgt a b = true \/ feq a b.

(** The order of the lines in the table. *)
Definition by_label (x y : Labelled) : Prop := (label x < label y)%nat.

(** Another casing of a string: the letters at the positions marked
    [true] change case. *)
Definition swap_case (c : ascii) : ascii :=
  let n := nat_of_ascii c in
  if ((65 <=? n) && (n <=? 90))%nat then lower_char c else upper_char c.

Fixpoint recase (mask : list bool) (s : string) : string :=
  match s, mask with
  | EmptyString, _ => EmptyString
  | String c s', [] => s
  | String c s', b :: mask' =>
      String (if b then swap_case c else c) (recase mask' s')
  end.




Definition has_product (df : DataFrame) (pid : Z) : Prop :=
  exists r, In r (rows df) /\ product_id r = pid.

Definition has_category (df : DataFrame) (cat : string) : Prop :=
  exists r, In r (rows df) /\ str_lower (category r) = str_lower cat.

(** The entry that the listing loops append for a line and its pricing. *)
Definition product_of (row : Row) (pr : Pricing.t) : Product.t :=
  {| Product.product_id := product_id row;
     Product.name := name row;
     Product.category := category row;
     Product.base_price := Pricing.base_price pr;
     Product.stock := Pricing.stock pr;
     Product.dynamic_price := Pricing.dynamic_price pr;
     Product.discount_percent := Pricing.discount_percent pr;
     Product.demand_level := Pricing.demand_level pr |}.

(** A line is listed as the entry [p]: the identity of the line, with
    the pricing computed for its [product_id]. *)
Definition listed (model : option Predictor) (df : DataFrame)
  (row : Row) (p : Product.t) : Prop :=
  exists pr,
    calculate_dynamic_price model df (product_id row) = Ok (Some pr) /\
    p = product_of row pr.

(** The category of an entry matches, letter case aside. *)
Definition in_category (cat : string) (p : Product.t) : bool :=
  String.eqb (str_lower (Product.category p)) (str_lower cat).

(** Strict order of strings. *)
Definition str_lt (a b : string) : Prop := String.ltb a b = true.

(** The request that carries the features derived for a line. *)
Definition request_of (df : DataFrame) (product : Row)
  : PricePrediction.PricingRequest :=
  let fv := derive_features df product in
  PricePrediction.mkRequest (f_demand_ratio fv) (f_inventory_level fv)
    (f_sales_trend fv) (f_popularity fv) (f_scarcity fv) (day product).

(** The frame that [nlargest] reads in [get_insights]. *)
Definition demand_frame (df : DataFrame) : list Labelled :=
  label_from 0 (rows df) (demand_ratio_column df).

(** ** Sample tables *)

Definition milk : Row := mkRow 1 "Milk" "Dairy" 1.004 1 10 30 3.
Definition bread : Row := mkRow 2 "Bread" "Bakery" 10 9 20 20 3.
Definition salt : Row := mkRow 3 "Salt" "Pantry" 10 0 0 0 1.
Definition rice : Row := mkRow 4 "Rice" "Pantry" 10 999 2004 3000 3.
Definition cheese : Row := mkRow 5 "Cheese" "DAIRY" 4 1 10 12 5.

Definition groceries : DataFrame := read_csv [milk; bread; salt; rice; cheese].


(** A product whose stock is the largest int64. *)
Definition gold : Row :=
  mkRow 9 "Gold" "Vault" 10 9223372036854775807 4611686018427387904 0 1.
Definition vault : DataFrame := read_csv [gold].

(** Two products of one price: bran sells more than oats and has less
    stock. *)
Definition oats : Row := mkRow 21 "Oats" "Pantry" 5 40 10 30 1.
Definition bran : Row := mkRow 22 "Bran" "Pantry" 5 20 15 30 1.
Definition shelf : DataFrame := read_csv [oats; bran].

(** A predictor that answers 12 whatever the features. *)
Definition twelve : Predictor := fun _ => Some (Finite 12).

(** Four products whose demand ratios are 2, 5, 2 and 5. *)
Definition ties : DataFrame :=
  read_csv [mkRow 11 "Tea" "Drinks" 3 0 2 9 1;
            mkRow 12 "Cocoa" "Drinks" 4 0 5 9 1;
            mkRow 13 "Juice" "Drinks" 2 1 4 9 2;
            mkRow 14 "Water" "Drinks" 1 1 10 9 2].


(** * Properties *)

(** ** Integers of 64 bits *)

Lemma int64_wrap_range (z : Z) :
  (-9223372036854775808 <= int64_wrap z < 9223372036854775808)%Z.
Proof.
  unfold int64_wrap.
  pose proof (Z.mod_pos_bound (z + 9223372036854775808)
                18446744073709551616 eq_refl).
  lia.
Qed.

Lemma int64_wrap_small (z : Z) :
  (-9223372036854775808 <= z < 9223372036854775808)%Z -> int64_wrap z = z.
Proof.
  intro H. unfold int64_wrap. rewrite Z.mod_small; lia.
Qed.

(** A sum that leaves the range by one comes back at the other end. *)
Lemma int64_wrap_succ_nonzero (z : Z) :
  (0 <= z < 9223372036854775808)%Z -> int64_wrap (z + 1) <> 0%Z.
Proof.
  intro H. destruct (Z.eq_dec z 9223372036854775807) as [-> | Hne].
  - vm_compute. discriminate.
  - rewrite int64_wrap_small; lia.
Qed.

Lemma stock_range (r : Row) :
  (-9223372036854775808 <= stock r < 9223372036854775808)%Z.
Proof. apply int64_wrap_range. Qed.

Lemma sales_7_range (r : Row) :
  (-9223372036854775808 <= sales_7 r < 9223372036854775808)%Z.
Proof. apply int64_wrap_range. Qed.

Lemma sales_30_range (r : Row) :
  (-9223372036854775808 <= sales_30 r < 9223372036854775808)%Z.
Proof. apply int64_wrap_range. Qed.

Lemma day_range (r : Row) :
  (-9223372036854775808 <= day r < 9223372036854775808)%Z.
Proof. apply int64_wrap_range. Qed.

Lemma of_int_small (z : Z) :
  (-9223372036854775808 <= z < 9223372036854775808)%Z ->
  of_int z = Finite (inject_Z z).
Proof. intro H. unfold of_int. rewrite int64_wrap_small by exact H. reflexivity. Qed.

(** ** Arithmetic of floats *)

Lemma fgt_Finite (a b : Q) : fgt (Finite a) (Finite b) = true <-> b < a.
Proof.
  simpl. destruct (Qcompare_spec a b) as [H | H | H]; split; intro K;
    try discriminate; try reflexivity; lra.
Qed.

Lemma fgt_Finite_false (a b : Q) :
  fgt (Finite a) (Finite b) = false <-> a <= b.
Proof.
  simpl. destruct (Qcompare_spec a b) as [H | H | H]; split; intro K;
    try discriminate; try reflexivity; lra.
Qed.

Lemma fle_Finite (a b : Q) : fle (Finite a) (Finite b) = true <-> a <= b.
Proof.
  unfold fle. rewrite negb_true_iff. apply fgt_Finite_false.
Qed.

(** A quotient of two rationals is a rational exactly when the divisor is
    not zero: an infinity or nan marks a division by zero. *)
Lemma fdiv_Finite_nonzero (a b : Q) :
  ~ b == 0 -> fdiv (Finite a) (Finite b) = Finite (a / b).
Proof.
  intro H. simpl. destruct (Qcompare_spec b 0); [contradiction | reflexivity ..].
Qed.

Lemma fdiv_Finite_zero (a b : Q) :
  b == 0 -> isfinite (fdiv (Finite a) (Finite b)) = false.
Proof.
  intro H. simpl. destruct (Qcompare_spec b 0); [ | lra ..].
  destruct (a ?= 0); reflexivity.
Qed.

Lemma rint_error (q : Q) : Qabs (inject_Z (rint q) - q) <= 1 # 2.
Proof.
  unfold rint.
  pose proof (Qfloor_le q) as Hlo. pose proof (Qlt_floor q) as Hhi.
  rewrite inject_Z_plus in Hhi. change (inject_Z 1) with 1 in Hhi.
  apply Qabs_Qle_condition.
  destruct (Qcompare_spec (q - inject_Z (Qfloor q)) (1 # 2)) as [H | H | H].
  - destruct (Z.even (Qfloor q)).
    + split; lra.
    + rewrite inject_Z_plus. change (inject_Z 1) with 1. split; lra.
  - split; lra.
  - rewrite inject_Z_plus. change (inject_Z 1) with 1. split; lra.
Qed.

Lemma round2_Q_error (q : Q) : Qabs (round2_Q q - q) <= 1 # 200.
Proof.
  unfold round2_Q. pose proof (rint_error (q * 100)) as H.
  apply Qabs_Qle_condition in H. apply Qabs_Qle_condition.
  set (r := inject_Z (rint (q * 100))) in *.
  assert (E : r / 100 == r * (1 # 100)) by (unfold Qdiv; reflexivity).
  rewrite E. split; lra.
Qed.

(** Clipping a number that is not nan to a non-empty interval of
    rationals gives a rational of that interval. *)
Lemma np_clip_bounds (x : np_float) (lo hi : Q) :
  isnan x = false -> lo <= hi ->
  exists c, np_clip x (Finite lo) (Finite hi) = Finite c /\ lo <= c <= hi.
Proof.
  intros Hx Hle. unfold np_clip, np_max, np_min, flt. rewrite Hx.
  destruct x as [a | | |]; try discriminate.
  - destruct (fgt (Finite a) (Finite lo)) eqn:E1.
    + apply fgt_Finite in E1. simpl isnan. cbv iota.
      destruct (fgt (Finite hi) (Finite a)) eqn:E2.
      * apply fgt_Finite in E2. exists a. split; [reflexivity | lra].
      * apply fgt_Finite_false in E2. exists hi. split; [reflexivity | lra].
    + apply fgt_Finite_false in E1. simpl isnan. cbv iota.
      destruct (fgt (Finite hi) (Finite lo)) eqn:E2.
      * exists lo. split; [reflexivity | lra].
      * apply fgt_Finite_false in E2. exists hi. split; [reflexivity | lra].
  - simpl. exists hi. split; [reflexivity | lra].
  - simpl. destruct (Qcompare_spec hi lo) as [H | H | H].
    + exists hi. split; [reflexivity | lra].
    + exists hi. split; [reflexivity | lra].
    + exists lo. split; [reflexivity | lra].
Qed.

(** ** Bounds of the dynamic price *)

(** C1 (as amended).  For a product of non-negative base price whose
    predicted price is not nan, [calculate_dynamic_price] returns a
    result; the price clipped on line 92 lies between [base_price * 0.5]
    and [base_price * 1.5], and the [dynamic_price] returned is that
    clipped price rounded to two decimals: the bounds hold of the price
    before the output rounding, not of the rounded price. *)
Theorem C1_dynamic_price_bounds
  (model : option Predictor) (df : DataFrame) (pid : Z)
  (product : Row) (others : list Row) (raw : np_float) :
  select_product df pid = product :: others ->
  0 <= base_price product ->
  predict_price model df product = Ok raw ->
  isnan raw = false ->
  exists pr,
    calculate_dynamic_price model df pid = Ok (Some pr) /\
    Pricing.base_price pr = Finite (base_price product) /\
    Pricing.dynamic_price pr = round2 (clip_price (base_price product) raw) /\
    fle (fmul (Finite (base_price product)) (Finite 0.5))
        (clip_price (base_price product) raw) = true /\
    fle (clip_price (base_price product) raw)
        (fmul (Finite (base_price product)) (Finite 1.5)) = true.
Proof.
  intros Hsel Hbp Hraw Hnan.
  destruct (np_clip_bounds raw (base_price product * 0.5)
              (base_price product * 1.5) Hnan) as [c [Hc Hin]]; [lra | ].
  unfold calculate_dynamic_price, price_product. rewrite Hsel, Hraw.
  cbn [bind]. eexists. split; [reflexivity | ].
  cbn [Pricing.base_price Pricing.dynamic_price].
  split; [reflexivity | ]. split; [reflexivity | ].
  unfold clip_price. cbn [fmul]. rewrite Hc.
  split; apply fle_Finite; lra.
Qed.

Lemma C1_dynamic_price_bounds_witness :
  exists pr,
    calculate_dynamic_price None groceries 2 = Ok (Some pr) /\
    Pricing.base_price pr = Finite (base_price bread) /\
    Pricing.dynamic_price pr
    = round2 (clip_price (base_price bread) (Finite (15966000 # 999000))) /\
    fle (fmul (Finite (base_price bread)) (Finite 0.5))
        (clip_price (base_price bread) (Finite (15966000 # 999000))) = true /\
    fle (clip_price (base_price bread) (Finite (15966000 # 999000)))
        (fmul (Finite (base_price bread)) (Finite 1.5)) = true.
Proof.
  apply (C1_dynamic_price_bounds None groceries 2 bread []
           (Finite (15966000 # 999000))).
  - reflexivity.
  - vm_compute. discriminate.
  - vm_compute. reflexivity.
  - reflexivity.
Defined.

(** C1 (as stated) fails: milk costs 1.004, its price is clipped to
    1.506 and returned as 1.51, above one and a half times 1.004. *)
Lemma C1_rounded_price_exceeds_bound :
  exists pr,
    calculate_dynamic_price None groceries 1 = Ok (Some pr) /\
    feq (Pricing.base_price pr) (Finite 1.004) /\
    feq (Pricing.dynamic_price pr) (Finite 1.51) /\
    within_bounds pr = false.
Proof.
  eexists. split; [vm_compute; reflexivity | ].
  repeat split; vm_compute; reflexivity.
Qed.

(** ** Demand level *)

Lemma calculate_returns (model : option Predictor) (df : DataFrame)
  (pid : Z) (pr : Pricing.t) :
  calculate_dynamic_price model df pid = Ok (Some pr) ->
  exists product others,
    select_product df pid = product :: others /\
    price_product model df product = Ok pr.
Proof.
  unfold calculate_dynamic_price. intro H.
  destruct (select_product df pid) as [ | product others]; [discriminate | ].
  exists product, others. split; [reflexivity | ].
  destruct (price_product model df product); [ | discriminate].
  cbn in H. congruence.
Qed.

Lemma price_product_fields (model : option Predictor) (df : DataFrame)
  (product : Row) (pr : Pricing.t) :
  price_product model df product = Ok pr ->
  let exact := fdiv (of_int (sales_7 product)) (of_int (stock product + 1)) in
  Pricing.demand_level pr = classify exact /\
  Pricing.demand_ratio pr = round2 exact /\
  Pricing.base_price pr = Finite (base_price product) /\
  Pricing.stock pr = stock product.
Proof.
  unfold price_product. intro H.
  destruct (predict_price model df product); [ | discriminate].
  cbn in H. injection H as <-. cbn. repeat split.
Qed.

(** C2.  The demand level follows the thresholds on the demand ratio
    [sales_7 / (stock + 1)] of the priced product: above 2 it is High,
    above 1 and at most 2 it is Medium, at most 1 it is Low.  A product
    with stock 9 and 20 sales in 7 days, ratio exactly 2, is Medium. *)
Theorem C2_demand_level_thresholds
  (model : option Predictor) (df : DataFrame) (pid : Z) (pr : Pricing.t) :
  calculate_dynamic_price model df pid = Ok (Some pr) ->
  exists product others,
    select_product df pid = product :: others /\
    let ratio :=
      fdiv (of_int (sales_7 product)) (of_int (stock product + 1)) in
    (fgt ratio (of_int 2) = true -> Pricing.demand_level pr = High) /\
    (fgt ratio (of_int 1) = true -> fle ratio (of_int 2) = true ->
     Pricing.demand_level pr = Medium) /\
    (fle ratio (of_int 1) = true -> Pricing.demand_level pr = Low) /\
    (stock product = 9%Z -> sales_7 product = 20%Z ->
     feq ratio (Finite 2) /\ Pricing.demand_level pr = Medium).
Proof.
  intro H. destruct (calculate_returns _ _ _ _ H) as (product & others & Hs & Hp).
  exists product, others. split; [exact Hs | ].
  destruct (price_product_fields _ _ _ _ Hp) as (Hl & _). cbv zeta.
  rewrite Hl. unfold classify, fle.
  set (ratio := fdiv _ _). repeat split.
  - intros ->. reflexivity.
  - intros H1 H2. rewrite H1.
    destruct ratio; try discriminate; cbn in H2 |- *;
      apply negb_true_iff in H2; cbn in H2; rewrite H2; reflexivity.
  - intro H1.
    assert (E1 : fgt ratio (of_int 1) = false)
      by (destruct ratio; try discriminate; apply negb_true_iff in H1; exact H1).
    assert (E2 : fgt ratio (of_int 2) = false).
    { destruct ratio as [q | | |]; try discriminate; try reflexivity.
      apply fgt_Finite_false. apply fgt_Finite_false in E1.
      change (int64_wrap 1) with 1%Z in E1. change (int64_wrap 2) with 2%Z.
      unfold inject_Z in *. lra. }
    rewrite E1, E2. reflexivity.
  - subst ratio. rewrite H0, H1. vm_compute. reflexivity.
  - subst ratio. rewrite H0, H1. reflexivity.
Qed.

Lemma C2_demand_level_thresholds_witness :
  exists product others,
    select_product groceries 2 = product :: others /\
    let ratio :=
      fdiv (of_int (sales_7 product)) (of_int (stock product + 1)) in
    (fgt ratio (of_int 2) = true -> Pricing.demand_level
       (Pricing.mk (Finite 10) (Finite 15.00) (Finite 50.00) Medium
          (Finite 2.00) 9)
       = High) /\
    (fgt ratio (of_int 1) = true -> fle ratio (of_int 2) = true ->
     Pricing.demand_level
       (Pricing.mk (Finite 10) (Finite 15.00) (Finite 50.00) Medium
          (Finite 2.00) 9)
       = Medium) /\
    (fle ratio (of_int 1) = true -> Pricing.demand_level
       (Pricing.mk (Finite 10) (Finite 15.00) (Finite 50.00) Medium
          (Finite 2.00) 9)
       = Low) /\
    (stock product = 9%Z -> sales_7 product = 20%Z ->
     feq ratio (Finite 2) /\ Pricing.demand_level
       (Pricing.mk (Finite 10) (Finite 15.00) (Finite 50.00) Medium
          (Finite 2.00) 9)
       = Medium).
Proof.
  apply (C2_demand_level_thresholds None groceries 2).
  vm_compute. reflexivity.
Defined.

(** ** Features *)

Lemma fold_max_ge (l : list Z) (z : Z) :
  (z <= fold_left Z.max l z)%Z /\
  Forall (fun s => (s <= fold_left Z.max l z)%Z) l.
Proof.
  revert z. induction l as [ | a l IH]; intro z; cbn.
  - split; [lia | constructor].
  - destruct (IH (Z.max z a)) as [H1 H2]. split; [lia | ].
    constructor; [lia | exact H2].
Qed.

Lemma fold_max_in (l : list Z) (z : Z) :
  fold_left Z.max l z = z \/ In (fold_left Z.max l z) l.
Proof.
  revert z. induction l as [ | a l IH]; intro z; cbn.
  - left. reflexivity.
  - destruct (IH (Z.max z a)) as [H | H].
    + rewrite H. destruct (Z.max_spec z a) as [[_ E] | [_ E]]; rewrite E; auto.
    + right. right. exact H.
Qed.

(** [series.max()] is the largest element of a column. *)
Lemma series_max_spec (col : list Z) (m : Z) :
  In m col -> Forall (fun s => (s <= m)%Z) col -> series_max col = of_int m.
Proof.
  intros Hin Hall. destruct col as [ | z col]; [contradiction | ].
  cbn. f_equal. f_equal.
  destruct (fold_max_ge col z) as [Hz Hcol].
  assert (Hm : (m <= fold_left Z.max col z)%Z).
  { destruct Hin as [<- | Hin]; [exact Hz | ].
    rewrite Forall_forall in Hcol. apply Hcol, Hin. }
  assert (Hf : (fold_left Z.max col z <= m)%Z).
  { rewrite Forall_forall in Hall. apply Hall.
    destruct (fold_max_in col z) as [-> | H]; [left | right]; auto. }
  lia.
Qed.

Lemma is_max_stock_range (df : DataFrame) (m : Z) :
  is_max_stock df m ->
  (-9223372036854775808 <= m < 9223372036854775808)%Z.
Proof.
  intros [Hin _]. apply in_map_iff in Hin. destruct Hin as (r & <- & _).
  apply stock_range.
Qed.

(** C3 (as amended).  For a line whose stock and sales in 7 days are
    below 2^63 - 1, the features computed are those of the data model:
    [sales_7 / (stock + 1)], [stock / maxStock], [sales_30 / (sales_7 + 1)],
    [sales_30 / (base_price * stock + 1)], [1 / (stock + 1)] and the day
    as it is, where [maxStock] is the largest stock of the table. *)
Theorem C3_features_follow_data_model
  (df : DataFrame) (product : Row) (maxStock : Z) :
  is_max_stock df maxStock ->
  (stock product < 9223372036854775807)%Z ->
  (sales_7 product < 9223372036854775807)%Z ->
  derive_features df product = spec_features product maxStock.
Proof.
  intros Hmax Hs H7. pose proof (is_max_stock_range _ _ Hmax) as Hm.
  destruct Hmax as [Hin Hall].
  pose proof (stock_range product). pose proof (sales_7_range product).
  pose proof (sales_30_range product). pose proof (day_range product).
  unfold derive_features, spec_features, real_of.
  rewrite (series_max_spec _ _ Hin Hall).
  rewrite !of_int_small by lia. reflexivity.
Qed.

Lemma C3_features_follow_data_model_witness :
  derive_features groceries bread = spec_features bread 999.
Proof.
  apply (C3_features_follow_data_model groceries bread 999).
  - split.
    + vm_compute. auto 6.
    + repeat constructor; vm_compute; discriminate.
  - vm_compute. reflexivity.
  - vm_compute. reflexivity.
Defined.

(** C3 (as stated) fails: with a stock of 2^63 - 1 the sum [stock + 1]
    wraps around to -2^63, and for 2^62 sales in 7 days the demand ratio
    computed is -1/2 where the data model says 1/2. *)
Lemma C3_sum_wraps_at_int64_max :
  is_max_stock vault 9223372036854775807 /\
  In gold (rows vault) /\
  feq (f_demand_ratio (derive_features vault gold)) (Finite (- (1 # 2))) /\
  feq (f_demand_ratio (spec_features gold 9223372036854775807))
    (Finite (1 # 2)) /\
  derive_features vault gold <> spec_features gold 9223372036854775807.
Proof.
  split; [split; [vm_compute; auto | repeat constructor; vm_compute;
                                     discriminate] | ].
  split; [left; reflexivity | ].
  split; [vm_compute; reflexivity | ].
  split; [vm_compute; reflexivity | ].
  intro H. apply (f_equal f_demand_ratio) in H. vm_compute in H.
  discriminate.
Qed.

(** ** Fallback formula *)

Lemma feq_refl (x : np_float) : feq x x.
Proof. destruct x; cbn; [reflexivity | exact I ..]. Qed.

(** C4.  Without model and scaler the predicted price is
    [base_price * (1 + 0.3 * demand_ratio - 0.2 * inventory_level)] on the
    demand ratio and inventory level derived for the product, before any
    clipping. *)
Theorem C4_fallback_formula (df : DataFrame) (product : Row) :
  exists raw,
    predict_price None df product = Ok raw /\
    feq raw
      (spec_fallback (base_price product)
         (f_demand_ratio (derive_features df product))
         (f_inventory_level (derive_features df product))).
Proof.
  eexists. split; [reflexivity | ]. unfold spec_fallback.
  generalize (f_demand_ratio (derive_features df product)) as dr.
  generalize (f_inventory_level (derive_features df product)) as il.
  intros il dr.
  destruct dr as [d | | |], il as [i | | |]; cbn;
    try apply feq_refl; try exact I.
  ring.
Qed.

(** ** Division by zero *)

Lemma inject_Z_zero (z : Z) : inject_Z z == 0 -> z = 0%Z.
Proof. intro E. unfold Qeq in E. cbn in E. lia. Qed.

Lemma of_int_div_finite (a b : Z) :
  int64_wrap b <> 0%Z -> isfinite (fdiv (of_int a) (of_int b)) = true.
Proof.
  intro H. unfold of_int. rewrite fdiv_Finite_nonzero; [reflexivity | ].
  intro E. apply H, inject_Z_zero, E.
Qed.

(** The four quotients whose divisor carries a [+ 1] never divide by zero
    on non-negative counters and a non-negative base price. *)
Lemma offset_features_finite (df : DataFrame) (product : Row) :
  (0 <= stock product)%Z -> (0 <= sales_7 product)%Z ->
  0 <= base_price product ->
  let fv := derive_features df product in
  isfinite (f_demand_ratio fv) = true /\
  isfinite (f_sales_trend fv) = true /\
  isfinite (f_popularity fv) = true /\
  isfinite (f_scarcity fv) = true.
Proof.
  intros Hs H7 Hb. cbv zeta. unfold derive_features.
  pose proof (stock_range product) as Rs.
  pose proof (sales_7_range product) as R7.
  cbn [f_demand_ratio f_sales_trend f_popularity f_scarcity].
  repeat split;
    try (apply of_int_div_finite, int64_wrap_succ_nonzero; lia).
  rewrite (of_int_small (stock product)) by lia.
  change (of_int 1) with (Finite 1). rewrite (of_int_small _ (sales_30_range _)).
  cbn [fmul fadd]. rewrite fdiv_Finite_nonzero; [reflexivity | ].
  assert (0 <= inject_Z (stock product))
    by (change 0 with (inject_Z 0); rewrite <- Zle_Qle; exact Hs).
  nra.
Qed.

(** The inventory level divides by the largest stock, which carries no
    such offset: it is a number exactly when that stock is not zero. *)
Lemma inventory_level_finite_iff
  (df : DataFrame) (product : Row) (maxStock : Z) :
  is_max_stock df maxStock ->
  isfinite (f_inventory_level (derive_features df product)) = true
  <-> maxStock <> 0%Z.
Proof.
  intros Hmax. pose proof (is_max_stock_range _ _ Hmax) as Rm.
  destruct Hmax as [Hin Hall]. unfold derive_features.
  cbn [f_inventory_level].
  rewrite (series_max_spec _ _ Hin Hall). split.
  - intros H E. subst maxStock.
    pose proof (fdiv_Finite_zero (inject_Z (stock product)) (inject_Z 0)) as K.
    rewrite (of_int_small (stock product)) in H by apply stock_range.
    change (of_int 0) with (Finite (inject_Z 0)) in H.
    rewrite K in H; [discriminate | reflexivity].
  - intro Hm. apply of_int_div_finite.
    rewrite int64_wrap_small by exact Rm. exact Hm.
Qed.

(** With counters that are not negative and a largest stock that is not
    zero, the fallback price is a rational: the hypothesis of a price
    that is not nan is met on the fallback path. *)
Lemma fallback_price_finite (df : DataFrame) (product : Row) (maxStock : Z) :
  is_max_stock df maxStock -> maxStock <> 0%Z -> (0 <= stock product)%Z ->
  exists q, predict_price None df product = Ok (Finite q).
Proof.
  intros Hmax Hm Hs. pose proof (is_max_stock_range _ _ Hmax) as Rm.
  destruct Hmax as [Hin Hall]. pose proof (stock_range product) as Rs.
  unfold predict_price, derive_features.
  rewrite (series_max_spec _ _ Hin Hall).
  unfold of_int. cbn [f_demand_ratio f_inventory_level].
  rewrite !fdiv_Finite_nonzero.
  - cbn. eexists. reflexivity.
  - intro E. apply inject_Z_zero in E.
    rewrite int64_wrap_small in E by exact Rm. contradiction.
  - intro E. apply inject_Z_zero in E.
    apply (int64_wrap_succ_nonzero (stock product)); [lia | exact E].
Qed.

(** C5 (failing input).  On a table whose only product has stock 0, with
    non-negative counters throughout, the divisor of the inventory level
    is zero: the level is nan, and so are the fallback price and the
    dynamic price returned. *)
Theorem C5_all_zero_stock_divides_by_zero :
  (0 <= stock salt)%Z /\ (0 <= sales_7 salt)%Z /\ (0 <= sales_30 salt)%Z /\
  series_max (map stock (rows (read_csv [salt]))) = of_int 0 /\
  f_inventory_level (derive_features (read_csv [salt]) salt) = NaN /\
  predict_price None (read_csv [salt]) salt = Ok NaN /\
  exists pr,
    calculate_dynamic_price None (read_csv [salt]) 3 = Ok (Some pr) /\
    Pricing.dynamic_price pr = NaN.
Proof.
  repeat split; try (vm_compute; discriminate); try reflexivity.
  eexists. split; vm_compute; reflexivity.
Qed.

(** ** Rounded ratio and exact level *)

(** C10.  The demand level is computed from the exact demand ratio and
    the [demand_ratio] field is that ratio rounded to two decimals; rice,
    with 2004 sales in 7 days and stock 999, is reported with ratio 2.0
    and level High, although a ratio of exactly 2 gives Medium. *)
Theorem C10_level_from_exact_ratio :
  (forall (model : option Predictor) (df : DataFrame) (pid : Z)
          (pr : Pricing.t),
     calculate_dynamic_price model df pid = Ok (Some pr) ->
     exists product others,
       select_product df pid = product :: others /\
       let exact :=
         fdiv (of_int (sales_7 product)) (of_int (stock product + 1)) in
       Pricing.demand_level pr = classify exact /\
       Pricing.demand_ratio pr = round2 exact) /\
  (exists pr,
     calculate_dynamic_price None groceries 4 = Ok (Some pr) /\
     sales_7 rice = 2004%Z /\ stock rice = 999%Z /\
     feq (fdiv (of_int (sales_7 rice)) (of_int (stock rice + 1)))
         (Finite 2.004) /\
     feq (Pricing.demand_ratio pr) (Finite 2) /\
     Pricing.demand_level pr = High /\
     classify (Finite 2) = Medium).
Proof.
  split.
  - intros model df pid pr H.
    destruct (calculate_returns _ _ _ _ H) as (product & others & Hs & Hp).
    exists product, others. split; [exact Hs | ].
    destruct (price_product_fields _ _ _ _ Hp) as (Hl & Hr & _).
    cbv zeta. split; assumption.
  - eexists. split; [vm_compute; reflexivity | ].
    repeat split; vm_compute; reflexivity.
Qed.

Lemma C10_level_from_exact_ratio_witness :
  exists product others,
    select_product groceries 4 = product :: others /\
    let exact :=
      fdiv (of_int (sales_7 product)) (of_int (stock product + 1)) in
    Pricing.demand_level
      (Pricing.mk (Finite 10) (Finite 14.01) (Finite 40.12) High
         (Finite 2.00) 999) = classify exact /\
    Pricing.demand_ratio
      (Pricing.mk (Finite 10) (Finite 14.01) (Finite 40.12) High
         (Finite 2.00) 999) = round2 exact.
Proof.
  apply (proj1 C10_level_from_exact_ratio None groceries 4%Z).
  vm_compute. reflexivity.
Defined.

(** ** Effect of the insights on the table *)

(** C6 (failing input).  On the table [groceries], which has no column
    ['demand_ratio'] when it is read, a call of [get_insights] leaves the
    process-wide table with that column added: the table after the call
    is not the table before it. *)
Lemma C6_get_insights_adds_column :
  demand_ratio groceries = None /\
  demand_ratio (fst (get_insights groceries)) <> None /\
  fst (get_insights groceries) <> groceries.
Proof.
  split; [reflexivity | ]. split.
  - cbn. discriminate.
  - intro H. apply (f_equal demand_ratio) in H. cbn in H. discriminate.
Qed.

(** The product handlers read the lines of the table and nothing else. *)
Lemma calculate_reads_rows (model : option Predictor) (df1 df2 : DataFrame)
  (pid : Z) :
  rows df1 = rows df2 ->
  calculate_dynamic_price model df1 pid = calculate_dynamic_price model df2 pid.
Proof.
  intro H.
  unfold calculate_dynamic_price, select_product, price_product,
    predict_price, derive_features.
  rewrite H. reflexivity.
Qed.

Lemma price_rows_reads_rows (model : option Predictor) (df1 df2 : DataFrame)
  (l : list Row) :
  rows df1 = rows df2 -> price_rows model df1 l = price_rows model df2 l.
Proof.
  intro H. induction l as [ | row l IH]; cbn; [reflexivity | ].
  rewrite IH, (calculate_reads_rows model df1 df2 _ H). reflexivity.
Qed.

(** The extent of the write of line 230: the lines of the table are
    left as they were and the one column written is ['demand_ratio'];
    the handlers that read the table answer as before the call. *)
Lemma get_insights_write_extent (df : DataFrame) :
  rows (fst (get_insights df)) = rows df /\
  demand_ratio (fst (get_insights df)) = Some (demand_ratio_column df) /\
  List.length (demand_ratio_column df) = List.length (rows df) /\
  get_insights (fst (get_insights df)) = get_insights df /\
  (forall model pid,
     calculate_dynamic_price model (fst (get_insights df)) pid
     = calculate_dynamic_price model df pid) /\
  (forall model cat,
     get_products_by_category model (fst (get_insights df)) cat
     = get_products_by_category model df cat).
Proof.
  repeat split; try reflexivity.
  - unfold demand_ratio_column. apply length_map.
  - intros model cat. unfold get_products_by_category, select_category.
    cbn [get_insights fst rows].
    destruct (filter _ (rows df)); [reflexivity | ].
    apply price_rows_reads_rows. reflexivity.
Qed.

(** ** Lookups *)

Lemma filter_empty {A : Type} (f : A -> bool) (l : list A) :
  filter f l = [] <-> forall x, In x l -> f x = false.
Proof.
  induction l as [ | a l IH]; cbn.
  - split; [intros _ x [] | reflexivity].
  - destruct (f a) eqn:E; split.
    + discriminate.
    + intro H. rewrite (H a) in E; [discriminate | left; reflexivity].
    + intros H x [<- | Hx]; [exact E | apply IH; assumption].
    + intro H. apply IH. intros x Hx. apply H. right. exact Hx.
Qed.

Lemma select_product_empty (df : DataFrame) (pid : Z) :
  select_product df pid = [] <-> ~ has_product df pid.
Proof.
  unfold select_product, has_product. rewrite filter_empty. split.
  - intros H (r & Hin & E). specialize (H r Hin).
    apply Z.eqb_neq in H. contradiction.
  - intros H r Hin. apply Z.eqb_neq. intro E. apply H. exists r. auto.
Qed.

Lemma select_category_empty (df : DataFrame) (cat : string) :
  select_category df cat = [] <-> ~ has_category df cat.
Proof.
  unfold select_category, has_category. rewrite filter_empty. split.
  - intros H (r & Hin & E). specialize (H r Hin).
    apply String.eqb_neq in H. contradiction.
  - intros H r Hin. apply String.eqb_neq. intro E. apply H. exists r. auto.
Qed.

(** The only exception that leaves the pricing is the predictor's. *)
Lemma price_product_raises (model : option Predictor) (df : DataFrame)
  (product : Row) (e : exn) :
  price_product model df product = Raise e -> e = PredictorError.
Proof.
  unfold price_product, predict_price.
  destruct model as [predictor | ]; cbn.
  - destruct (predictor _); cbn; congruence.
  - discriminate.
Qed.

Lemma calculate_raises (model : option Predictor) (df : DataFrame)
  (pid : Z) (e : exn) :
  calculate_dynamic_price model df pid = Raise e -> e = PredictorError.
Proof.
  unfold calculate_dynamic_price.
  destruct (select_product df pid) as [ | product others]; [discriminate | ].
  destruct (price_product model df product) eqn:E; cbn; [discriminate | ].
  intro H. injection H as <-. apply (price_product_raises _ _ _ _ E).
Qed.

Lemma price_rows_raises (model : option Predictor) (df : DataFrame)
  (l : list Row) (e : exn) :
  price_rows model df l = Raise e -> e = PredictorError.
Proof.
  induction l as [ | row l IH]; cbn; [discriminate | ].
  destruct (calculate_dynamic_price model df (product_id row)) eqn:E; cbn.
  - destruct (price_rows model df l); cbn; [discriminate | ].
    intro H. injection H as <-. apply IH. reflexivity.
  - intro H. injection H as <-. apply (calculate_raises _ _ _ _ E).
Qed.

(** C9.  [get_product] raises a 404 error exactly when no line has the
    requested [product_id]; [get_products_by_category] raises a 404 error
    exactly when no line has the category, letter case aside; and
    [calculate_dynamic_price] returns [None] exactly when no line has the
    [product_id]. *)
Theorem C9_not_found (model : option Predictor) (df : DataFrame) :
  (forall pid,
     (exists detail,
        get_product model df pid = Raise (HTTPException 404 detail))
     <-> ~ has_product df pid) /\
  (forall cat,
     (exists detail,
        get_products_by_category model df cat
        = Raise (HTTPException 404 detail))
     <-> ~ has_category df cat) /\
  (forall pid,
     calculate_dynamic_price model df pid = Ok None <-> ~ has_product df pid).
Proof.
  split; [ | split].
  - intro pid. rewrite <- select_product_empty. unfold get_product. split.
    + intros [detail H].
      destruct (select_product df pid) as [ | product others] eqn:Hs;
        [reflexivity | exfalso].
      destruct (calculate_dynamic_price model df pid) as [[pr | ] | e] eqn:E;
        cbn in H; try discriminate.
      apply calculate_raises in E. congruence.
    + intros ->. eexists. reflexivity.
  - intro cat. rewrite <- select_category_empty.
    unfold get_products_by_category. split.
    + intros [detail H].
      destruct (select_category df cat) as [ | row l]; [reflexivity | ].
      apply price_rows_raises in H. discriminate.
    + intros ->. eexists. reflexivity.
  - intro pid. rewrite <- select_product_empty.
    unfold calculate_dynamic_price. split.
    + destruct (select_product df pid) as [ | product others];
        [reflexivity | ].
      destruct (price_product model df product); cbn; discriminate.
    + intros ->. reflexivity.
Qed.

(** ** Letter case of a category *)







(** ** The ten products of highest demand *)

Lemma at_least_of_not_fgt (a b : np_float) :
  isnan a = false -> isnan b = false -> fgt b a = false -> at_least a b.
Proof.
  unfold at_least. intros Ha Hb H.
  destruct a as [p | | |], b as [q | | |]; try discriminate;
    try (left; reflexivity); try (right; exact I).
  cbn in H |- *. destruct (Qcompare_spec q p); try discriminate.
  - right. lra.
  - left. destruct (Qcompare_spec p q); try reflexivity; exfalso; lra.
Qed.

Lemma at_least_trans (a b c : np_float) :
  at_least a b -> at_least b c -> at_least a c.
Proof.
  unfold at_least.
  destruct a as [p | | |], b as [q | | |], c as [r | | |];
    intros [H1 | H1] [H2 | H2]; try discriminate; try contradiction;
    try (left; reflexivity); try (right; exact I).
  - left. apply fgt_Finite. apply fgt_Finite in H1, H2. lra.
  - left. apply fgt_Finite. apply fgt_Finite in H1. cbn in H2. lra.
  - left. apply fgt_Finite. apply fgt_Finite in H2. cbn in H1. lra.
  - right. cbn in *. lra.
Qed.

Lemma insert_desc_perm (x : Labelled) (l : list Labelled) :
  Permutation (insert_desc x l) (x :: l).
Proof.
  induction l as [ | y l IH]; cbn; [reflexivity | ].
  destruct (fgt (ratio y) (ratio x)); [ | reflexivity].
  rewrite IH. apply perm_swap.
Qed.

(** Sorting neither adds nor loses a line. *)
Lemma sort_desc_perm (l : list Labelled) : Permutation (sort_desc l) l.
Proof.
  induction l as [ | x l IH]; cbn; [reflexivity | ].
  rewrite insert_desc_perm. constructor. exact IH.
Qed.

Lemma Forall_sort_desc (P : Labelled -> Prop) (l : list Labelled) :
  Forall P l -> Forall P (sort_desc l).
Proof.
  intro H. rewrite Forall_forall in *. intros x Hx. apply H.
  apply (Permutation_in _ (sort_desc_perm l) Hx).
Qed.

Lemma insert_desc_sorted (x : Labelled) (l : list Labelled) :
  isnan (ratio x) = false ->
  Forall (fun y => isnan (ratio y) = false) l ->
  Forall (fun y => (label x < label y)%nat) l ->
  StronglySorted before l ->
  StronglySorted before (insert_desc x l).
Proof.
  intros Hx Hnan Hlab Hs. induction Hs as [ | y l Hs IH Hy]; cbn.
  - repeat constructor.
  - inversion Hnan as [ | ? ? Hny Hnan']; subst.
    inversion Hlab as [ | ? ? Hly Hlab']; subst.
    destruct (fgt (ratio y) (ratio x)) eqn:E.
    + constructor; [apply IH; assumption | ].
      rewrite Forall_forall in *. intros z Hz.
      apply (Permutation_in _ (insert_desc_perm x l)) in Hz.
      destruct Hz as [<- | Hz]; [left; exact E | apply Hy, Hz].
    + assert (Hxy : at_least (ratio x) (ratio y))
        by (apply at_least_of_not_fgt; assumption).
      constructor; [constructor; assumption | ].
      rewrite Forall_forall in *. intros z Hz.
      assert (Hxz : at_least (ratio x) (ratio z)).
      { destruct Hz as [<- | Hz]; [exact Hxy | ].
        apply at_least_trans with (ratio y); [exact Hxy | ].
        destruct (Hy z Hz) as [H | [[H _] | [_ H]]];
          [left; exact H | right; exact H | ].
        rewrite (Hnan' z Hz) in H. discriminate. }
      assert (Hl : (label x < label z)%nat)
        by (destruct Hz as [<- | Hz]; [exact Hly | apply Hlab', Hz]).
      destruct Hxz as [H | H]; [left; exact H | right; left; split; assumption].
Qed.

Lemma sort_desc_sorted (l : list Labelled) :
  Forall (fun y => isnan (ratio y) = false) l ->
  StronglySorted by_label l ->
  StronglySorted before (sort_desc l).
Proof.
  intros Hnan Hs. induction Hs as [ | x l Hs IH Hx]; cbn; [constructor | ].
  inversion Hnan as [ | ? ? Hnx Hnan']; subst.
  apply insert_desc_sorted; auto using Forall_sort_desc.
Qed.

Lemma StronglySorted_filter {A : Type} (R : A -> A -> Prop)
  (f : A -> bool) (l : list A) :
  StronglySorted R l -> StronglySorted R (filter f l).
Proof.
  intro Hs. induction Hs as [ | x l Hs IH Hx]; cbn; [constructor | ].
  destruct (f x); [ | exact IH]. constructor; [exact IH | ].
  rewrite Forall_forall in *. intros y Hy. apply Hx.
  apply filter_In in Hy. tauto.
Qed.

Lemma StronglySorted_app {A : Type} (R : A -> A -> Prop) (l1 l2 : list A) :
  StronglySorted R l1 -> StronglySorted R l2 ->
  (forall x y, In x l1 -> In y l2 -> R x y) ->
  StronglySorted R (l1 ++ l2).
Proof.
  intros H1 H2 H. induction H1 as [ | x l1 H1 IH Hx]; cbn; [exact H2 | ].
  constructor.
  - apply IH. intros a b Ha. apply H. right. exact Ha.
  - rewrite Forall_forall in *. intros y Hy. apply in_app_or in Hy.
    destruct Hy as [Hy | Hy]; [apply Hx, Hy | apply H; [left | ]; auto].
Qed.

Lemma In_firstn {A : Type} (n : nat) (l : list A) (x : A) :
  In x (firstn n l) -> In x l.
Proof.
  revert n. induction l as [ | a l IH]; intros [ | n]; cbn; try tauto.
  intros [H | H]; [left; exact H | right; apply (IH n H)].
Qed.

Lemma StronglySorted_firstn {A : Type} (R : A -> A -> Prop)
  (n : nat) (l : list A) :
  StronglySorted R l -> StronglySorted R (firstn n l).
Proof.
  intro Hs. revert n. induction Hs as [ | x l Hs IH Hx]; intros [ | n]; cbn;
    try constructor.
  - apply IH.
  - rewrite Forall_forall in *. intros y Hy. apply Hx.
    apply (In_firstn n l y Hy).
Qed.


Lemma label_from_labels (i : nat) (l : list Row) (col : list np_float) :
  Forall (fun x => (i <= label x)%nat) (label_from i l col) /\
  StronglySorted by_label (label_from i l col).
Proof.
  revert i col. induction l as [ | r l IH]; intros i col.
  { split; constructor. }
  destruct col as [ | c col]; cbn; [split; constructor | ].
  destruct (IH (S i) col) as [Hge Hs].
  assert (Hlt : Forall (fun x => (i < label x)%nat) (label_from (S i) l col))
    by (eapply Forall_impl; [ | exact Hge]; cbn; intros; lia).
  split.
  - constructor; [cbn; lia | ].
    eapply Forall_impl; [ | exact Hlt]. cbn. intros. lia.
  - constructor; [exact Hs | exact Hlt].
Qed.

(** A labelled line is the line of the table at its label, with the
    value of the column on that line. *)
Lemma label_from_line (f : Row -> np_float) (l : list Row) (i : nat)
  (x : Labelled) :
  In x (label_from i l (map f l)) ->
  (i <= label x)%nat /\
  nth_error l (label x - i) = Some (line x) /\
  ratio x = f (line x).
Proof.
  revert i. induction l as [ | r l IH]; intros i; cbn; [tauto | ].
  intros [<- | H]; cbn.
  - rewrite Nat.sub_diag. auto.
  - destruct (IH (S i) H) as (Hge & Hnth & Hr).
    replace (label x - i)%nat with (S (label x - S i)) by lia.
    cbn. split; [lia | auto].
Qed.

Lemma label_from_length (f : Row -> np_float) (l : list Row) (i : nat) :
  List.length (label_from i l (map f l)) = List.length l.
Proof.
  revert i. induction l as [ | r l IH]; intros i; cbn; [reflexivity | ].
  rewrite IH. reflexivity.
Qed.

Lemma filter_split_length {A : Type} (f : A -> bool) (l : list A) :
  (List.length (filter (fun x => negb (f x)) l) + List.length (filter f l)
   = List.length l)%nat.
Proof.
  induction l as [ | a l IH]; cbn; [reflexivity | ].
  destruct (f a); cbn; lia.
Qed.

Lemma nlargest_length (n : nat) (frame : list Labelled) :
  List.length (nlargest n frame) = Nat.min n (List.length frame).
Proof.
  unfold nlargest. rewrite length_firstn, length_app.
  rewrite (Permutation_length (sort_desc_perm _)), filter_split_length.
  reflexivity.
Qed.

Lemma nlargest_In (n : nat) (frame : list Labelled) (x : Labelled) :
  In x (nlargest n frame) -> In x frame.
Proof.
  unfold nlargest. intro H. apply In_firstn in H. apply in_app_or in H.
  destruct H as [H | H].
  - apply (Permutation_in _ (sort_desc_perm _)) in H.
    apply filter_In in H. tauto.
  - apply filter_In in H. tauto.
Qed.

(** The lines picked by [nlargest] are ordered by [before] as soon as the
    frame is in the order of its labels. *)
Lemma nlargest_sorted (n : nat) (frame : list Labelled) :
  StronglySorted by_label frame -> StronglySorted before (nlargest n frame).
Proof.
  intro Hs. unfold nlargest. apply StronglySorted_firstn.
  apply StronglySorted_app.
  - apply sort_desc_sorted.
    + rewrite Forall_forall. intros y Hy. apply filter_In in Hy.
      destruct Hy as [_ Hy]. apply negb_true_iff in Hy. exact Hy.
    + apply StronglySorted_filter, Hs.
  - apply (StronglySorted_filter _ (fun x => isnan (ratio x))) in Hs.
    assert (Hnan : Forall (fun y => isnan (ratio y) = true)
                     (filter (fun x => isnan (ratio x)) frame)).
    { rewrite Forall_forall. intros y Hy. apply filter_In in Hy. tauto. }
    induction Hs as [ | x l Hs IH Hx]; [constructor | ].
    inversion Hnan as [ | ? ? Hnx Hnan']; subst.
    constructor; [apply IH, Hnan' | ].
    rewrite Forall_forall in *. intros y Hy. right. left. split.
    + specialize (Hnan' y Hy).
      destruct (ratio x), (ratio y); try discriminate. exact I.
    + apply Hx, Hy.
  - intros x y Hx Hy. right. right.
    apply (Permutation_in _ (sort_desc_perm _)) in Hx.
    apply filter_In in Hx, Hy. destruct Hx as [_ Hx].
    apply negb_true_iff in Hx. tauto.
Qed.

(** C7.  The list [top_demand_products] has at most 10 entries (10, or
    all products when there are fewer); each entry carries the
    [product_id] and [name] of a line of the table and its demand ratio
    [sales_7 / (stock + 1)]; the entries are in decreasing order of that
    ratio, and entries of equal ratio are in the order of the table. *)
Theorem C7_top_demand_sorted (df : DataFrame) :
  let top := top_demand_lines df in
  Insights.top_demand_products (snd (get_insights df))
  = map (fun x => {| TopDemand.product_id := product_id (line x);
                     TopDemand.name := name (line x);
                     TopDemand.demand_ratio := ratio x |}) top /\
  (List.length top <= 10)%nat /\
  List.length top = Nat.min 10 (List.length (rows df)) /\
  Forall (fun x =>
            nth_error (rows df) (label x) = Some (line x) /\
            ratio x = fdiv (of_int (sales_7 (line x)))
                        (of_int (stock (line x) + 1))) top /\
  StronglySorted before top.
Proof.
  cbv zeta. unfold top_demand_lines, demand_ratio_column.
  assert (Hlen : List.length
                   (nlargest 10
                      (label_from 0 (rows df)
                         (map (fun r => fdiv (of_int (sales_7 r))
                                          (of_int (stock r + 1))) (rows df))))
                 = Nat.min 10 (List.length (rows df)))
    by (rewrite nlargest_length, label_from_length; reflexivity).
  split; [reflexivity | ]. split; [rewrite Hlen; apply Nat.le_min_l | ].
  split; [exact Hlen | ]. split.
  - rewrite Forall_forall. intros x Hx. apply nlargest_In in Hx.
    apply label_from_line in Hx. destruct Hx as (_ & Hnth & Hr).
    rewrite Nat.sub_0_r in Hnth. split; assumption.
  - apply nlargest_sorted. apply label_from_labels.
Qed.

(** Between two lines whose ratios are rationals, [before] is the order
    of the claim: the larger ratio first, and the table order among equal
    ratios. *)
Lemma before_finite (x y : Labelled) (a b : Q) :
  ratio x = Finite a -> ratio y = Finite b ->
  before x y <-> b < a \/ (a == b /\ (label x < label y)%nat).
Proof.
  intros Hx Hy. unfold before. rewrite Hx, Hy, fgt_Finite. cbn.
  split.
  - intros [H | [H | [_ H]]]; [left | right | discriminate]; exact H.
  - intros [H | H]; [left | right; left]; exact H.
Qed.

(** On the table [ties] the two products of ratio 5 come first and the
    two of ratio 2 next, each pair in the order of the table. *)
Example top_demand_on_ties :
  map TopDemand.product_id
    (Insights.top_demand_products (snd (get_insights ties)))
  = [12; 14; 11; 13]%Z.
Proof. vm_compute. reflexivity. Qed.

Example recase_Dairy : recase [true] "Dairy" = "dairy".
Proof. reflexivity. Qed.

(** * Further properties of the handlers *)

(** ** Rounding and clipping *)

Lemma rint_floor (q : Q) : (Qfloor q <= rint q <= Qfloor q + 1)%Z.
Proof.
  unfold rint. destruct (Qcompare _ _); [destruct (Z.even _) | | ]; lia.
Qed.

(** An integer bound on a number bounds its rounding. *)
Lemma rint_le (q : Q) (n : Z) : q <= inject_Z n -> (rint q <= n)%Z.
Proof.
  intro H. pose proof (Qfloor_le q) as Hf.
  assert (Hfn : (Qfloor q <= n)%Z).
  { rewrite <- (Qfloor_Z n). apply Qfloor_resp_le, H. }
  unfold rint.
  destruct (Qcompare_spec (q - inject_Z (Qfloor q)) (1 # 2)) as [E | E | E].
  - assert (Hlt : inject_Z (Qfloor q) < inject_Z n) by lra.
    rewrite <- Zlt_Qlt in Hlt. destruct (Z.even _); lia.
  - exact Hfn.
  - assert (Hlt : inject_Z (Qfloor q) < inject_Z n) by lra.
    rewrite <- Zlt_Qlt in Hlt. lia.
Qed.

Lemma rint_ge (q : Q) (n : Z) : inject_Z n <= q -> (n <= rint q)%Z.
Proof.
  intro H. pose proof (rint_floor q) as Hr.
  assert (Hfn : (n <= Qfloor q)%Z).
  { rewrite <- (Qfloor_Z n). apply Qfloor_resp_le, H. }
  lia.
Qed.

Lemma rint_comp (p q : Q) : p == q -> rint p = rint q.
Proof.
  intro H. unfold rint. rewrite (Qfloor_comp _ _ H).
  assert (E : p - inject_Z (Qfloor q) == q - inject_Z (Qfloor q))
    by (rewrite H; reflexivity).
  rewrite (Qcompare_comp _ _ E _ _ (Qeq_refl (1 # 2))). reflexivity.
Qed.

(** Rounding to the nearest integer is monotone. *)
Lemma rint_monotone (p q : Q) : p <= q -> (rint p <= rint q)%Z.
Proof.
  intro H.
  assert (Hf : (Qfloor p <= Qfloor q)%Z) by (apply Qfloor_resp_le, H).
  pose proof (rint_floor p) as Hp. pose proof (rint_floor q) as Hq.
  destruct (Z.eq_dec (Qfloor p) (Qfloor q)) as [E | E]; [ | lia].
  unfold rint. rewrite <- E.
  destruct (Qcompare_spec (p - inject_Z (Qfloor p)) (1 # 2)) as [E1 | E1 | E1];
    destruct (Qcompare_spec (q - inject_Z (Qfloor p)) (1 # 2)) as [E2 | E2 | E2];
    try (destruct (Z.even _)); try lia; exfalso; lra.
Qed.

Lemma Qdiv_100 (x : Q) : x / 100 == x * (1 # 100).
Proof. unfold Qdiv. reflexivity. Qed.

Lemma round2_Q_monotone (p q : Q) : p <= q -> round2_Q p <= round2_Q q.
Proof.
  intro H. unfold round2_Q. rewrite !Qdiv_100.
  assert (Hr : (rint (p * 100) <= rint (q * 100))%Z)
    by (apply rint_monotone; lra).
  rewrite Zle_Qle in Hr. lra.
Qed.

(** A bound in whole cents on a price bounds its rounding to cents. *)
Lemma round2_Q_le_cents (q : Q) (k : Z) :
  q <= inject_Z k / 100 -> round2_Q q <= inject_Z k / 100.
Proof.
  intro H. unfold round2_Q. rewrite !Qdiv_100 in *.
  assert (Hr : (rint (q * 100) <= k)%Z) by (apply rint_le; lra).
  rewrite Zle_Qle in Hr. lra.
Qed.

Lemma round2_Q_ge_cents (q : Q) (k : Z) :
  inject_Z k / 100 <= q -> inject_Z k / 100 <= round2_Q q.
Proof.
  intro H. unfold round2_Q. rewrite !Qdiv_100 in *.
  assert (Hr : (k <= rint (q * 100))%Z) by (apply rint_ge; lra).
  rewrite Zle_Qle in Hr. lra.
Qed.


(** The clip of a rational to a non-empty interval: it is in the
    interval, it is the upper bound unless it is at least the number, and
    the lower bound unless it is at most the number. *)
Lemma np_clip_Finite (a lo hi : Q) :
  lo <= hi ->
  exists c,
    np_clip (Finite a) (Finite lo) (Finite hi) = Finite c /\
    lo <= c <= hi /\ (a <= c \/ c == hi) /\ (c <= a \/ c == lo).
Proof.
  intro Hle. unfold np_clip, np_max, np_min, flt. cbn [isnan].
  destruct (fgt (Finite a) (Finite lo)) eqn:E1; cbn [isnan].
  - apply fgt_Finite in E1.
    destruct (fgt (Finite hi) (Finite a)) eqn:E2.
    + apply fgt_Finite in E2. exists a.
      split; [reflexivity | ]. split; [lra | ]. split; left; lra.
    + apply fgt_Finite_false in E2. exists hi.
      split; [reflexivity | ]. split; [lra | ]. split; [right | left]; lra.
  - apply fgt_Finite_false in E1.
    destruct (fgt (Finite hi) (Finite lo)) eqn:E2.
    + exists lo.
      split; [reflexivity | ]. split; [lra | ]. split; [left | right]; lra.
    + apply fgt_Finite_false in E2. exists hi.
      split; [reflexivity | ]. split; [lra | ]. split; [left | right]; lra.
Qed.


(** What [price_product] returns, given the predicted price. *)
Lemma price_product_value (model : option Predictor) (df : DataFrame)
  (product : Row) (raw : np_float) :
  predict_price model df product = Ok raw ->
  price_product model df product
  = Ok {| Pricing.base_price := Finite (base_price product);
          Pricing.dynamic_price :=
            round2 (clip_price (base_price product) raw);
          Pricing.discount_percent :=
            round2 (fmul (fdiv (fsub (clip_price (base_price product) raw)
                                  (Finite (base_price product)))
                            (Finite (base_price product)))
                      (of_int 100));
          Pricing.demand_level :=
            classify (f_demand_ratio (derive_features df product));
          Pricing.demand_ratio :=
            round2 (f_demand_ratio (derive_features df product));
          Pricing.stock := stock product |}.
Proof.
  intro H. unfold price_product. rewrite H. reflexivity.
Qed.

Lemma calculate_value (model : option Predictor) (df : DataFrame) (pid : Z)
  (product : Row) (others : list Row) (pr : Pricing.t) :
  select_product df pid = product :: others ->
  price_product model df product = Ok pr ->
  calculate_dynamic_price model df pid = Ok (Some pr).
Proof.
  intros Hs Hp. unfold calculate_dynamic_price. rewrite Hs, Hp. reflexivity.
Qed.

(** The discount of a clipped price, before its rounding. *)
Lemma clipped_discount (bp c : Q) :
  0 < bp ->
  fmul (fdiv (fsub (Finite c) (Finite bp)) (Finite bp)) (of_int 100)
  = Finite ((c + - bp) / bp * inject_Z 100).
Proof.
  intro H. cbn [fsub fneg fadd].
  rewrite fdiv_Finite_nonzero by lra. reflexivity.
Qed.

(** The clipped price of a product of positive base price, and what the
    result is made of. *)
Lemma priced_clipped (model : option Predictor) (df : DataFrame)
  (product : Row) (raw : np_float) :
  0 < base_price product ->
  predict_price model df product = Ok raw ->
  isnan raw = false ->
  exists c,
    0.5 * base_price product <= c <= 1.5 * base_price product /\
    (forall a, raw = Finite a ->
       (a <= c \/ c == 1.5 * base_price product) /\
       (c <= a \/ c == 0.5 * base_price product)) /\
    price_product model df product
    = Ok {| Pricing.base_price := Finite (base_price product);
            Pricing.dynamic_price := Finite (round2_Q c);
            Pricing.discount_percent :=
              Finite (round2_Q ((c + - base_price product)
                                / base_price product * inject_Z 100));
            Pricing.demand_level :=
              classify (f_demand_ratio (derive_features df product));
            Pricing.demand_ratio :=
              round2 (f_demand_ratio (derive_features df product));
            Pricing.stock := stock product |}.
Proof.
  intros Hbp Hraw Hnan. rewrite (price_product_value _ _ _ _ Hraw).
  unfold clip_price. cbn [fmul].
  assert (Hle : base_price product * 0.5 <= base_price product * 1.5) by lra.
  destruct raw as [a | | |]; try discriminate.
  - destruct (np_clip_Finite a _ _ Hle) as (c & Hc & Hin & Hup & Hlo).
    exists c. rewrite Hc, (clipped_discount _ _ Hbp). cbn [round2].
    split; [lra | ]. split; [ | reflexivity].
    intros a' E. injection E as <-.
    split; [destruct Hup | destruct Hlo]; (left; lra) || (right; lra).
  - destruct (np_clip_bounds PosInf _ _ eq_refl Hle) as (c & Hc & Hin).
    exists c. rewrite Hc, (clipped_discount _ _ Hbp). cbn [round2].
    split; [lra | ]. split; [discriminate | reflexivity].
  - destruct (np_clip_bounds NegInf _ _ eq_refl Hle) as (c & Hc & Hin).
    exists c. rewrite Hc, (clipped_discount _ _ Hbp). cbn [round2].
    split; [lra | ]. split; [discriminate | reflexivity].
Qed.

Lemma select_product_In (df : DataFrame) (pid : Z) (product : Row)
  (others : list Row) :
  select_product df pid = product :: others ->
  In product (rows df) /\ product_id product = pid.
Proof.
  intro H.
  assert (Hin : In product (select_product df pid))
    by (rewrite H; left; reflexivity).
  apply filter_In in Hin. destruct Hin as [Hin E].
  apply Z.eqb_eq in E. auto.
Qed.



(** ** Ranges of the features *)

Lemma inject_Z_nonneg (z : Z) : (0 <= z)%Z -> 0 <= inject_Z z.
Proof. intro H. change 0 with (inject_Z 0). rewrite <- Zle_Qle. exact H. Qed.

Lemma inject_Z_succ (z : Z) : inject_Z (z + 1) == inject_Z z + 1.
Proof. rewrite inject_Z_plus. reflexivity. Qed.

Lemma is_max_stock_bounds (df : DataFrame) (m : Z) (product : Row) :
  is_max_stock df m -> In product (rows df) -> (stock product <= m)%Z.
Proof.
  intros [_ Hall] Hin. rewrite Forall_forall in Hall. apply Hall.
  apply in_map, Hin.
Qed.

(** X3: ranges of the features.  For a line of the table with counters
    that are not negative and that a float holds exactly (at most 2^53)
    and a base price that is not negative, when the largest stock is not
    zero: the five features are numbers, the demand ratio is between 0
    and [sales_7], the inventory level between 0 and 1, the sales trend
    and the popularity between 0 and [sales_30], and the scarcity in
    (0, 1]. *)
Theorem features_ranges (df : DataFrame) (product : Row) (maxStock : Z) :
  In product (rows df) ->
  is_max_stock df maxStock -> maxStock <> 0%Z ->
  (0 <= stock product < 9007199254740992)%Z ->
  (0 <= sales_7 product < 9007199254740992)%Z ->
  (0 <= sales_30 product <= 9007199254740992)%Z ->
  0 <= base_price product ->
  exists dr il st pop sc,
    derive_features df product
    = mkFeatures (Finite dr) (Finite il) (Finite st) (Finite pop)
        (Finite sc) (of_int (day product)) /\
    0 <= dr <= inject_Z (sales_7 product) /\
    0 <= il <= 1 /\
    0 <= st <= inject_Z (sales_30 product) /\
    0 <= pop <= inject_Z (sales_30 product) /\
    0 < sc <= 1.
Proof.
  intros Hin Hmax Hm [Hs Hs'] [H7 H7'] [H30 H30'] Hbp.
  pose proof (is_max_stock_bounds _ _ _ Hmax Hin) as Hsm.
  pose proof (is_max_stock_range _ _ Hmax) as Rm.
  destruct Hmax as [Hmin Hall].
  pose proof (inject_Z_nonneg _ H7) as Q7.
  pose proof (inject_Z_nonneg _ H30) as Q30.
  pose proof (inject_Z_nonneg _ Hs) as Hs0.
  assert (Hm' : 0 < inject_Z maxStock)
    by (change 0 with (inject_Z 0); rewrite <- Zlt_Qlt; lia).
  assert (Qsm : inject_Z (stock product) <= inject_Z maxStock)
    by (rewrite <- Zle_Qle; exact Hsm).
  pose proof (inject_Z_succ (stock product)) as E1.
  pose proof (inject_Z_succ (sales_7 product)) as E7.
  assert (Hpop : 0 <= base_price product * inject_Z (stock product))
    by (apply Qmult_le_0_compat; assumption).
  unfold derive_features. rewrite (series_max_spec _ _ Hmin Hall).
  rewrite (of_int_small (stock product)), (of_int_small (sales_7 product)),
    (of_int_small (sales_30 product)), (of_int_small (stock product + 1)),
    (of_int_small (sales_7 product + 1)), (of_int_small maxStock),
    (of_int_small 1) by lia.
  cbn [fmul fadd]. change (inject_Z 1) with 1.
  rewrite !fdiv_Finite_nonzero by (intro; lra).
  do 5 eexists. split; [reflexivity | ].
  repeat split.
  all: try (apply Qle_shift_div_l; lra).
  all: try (apply Qle_shift_div_r; try lra; nra).
  apply Qlt_shift_div_l; lra.
Qed.

Lemma features_ranges_witness :
  exists dr il st pop sc,
    derive_features groceries bread
    = mkFeatures (Finite dr) (Finite il) (Finite st) (Finite pop)
        (Finite sc) (of_int (day bread)) /\
    0 <= dr <= inject_Z (sales_7 bread) /\
    0 <= il <= 1 /\
    0 <= st <= inject_Z (sales_30 bread) /\
    0 <= pop <= inject_Z (sales_30 bread) /\
    0 < sc <= 1.
Proof.
  apply (features_ranges groceries bread 999).
  - vm_compute. auto.
  - split; [vm_compute; auto 6 | repeat constructor; vm_compute; discriminate].
  - discriminate.
  - split; vm_compute; [discriminate | reflexivity].
  - split; vm_compute; [discriminate | reflexivity].
  - split; vm_compute; discriminate.
  - vm_compute. discriminate.
Defined.

(** ** The fallback formula on a table *)

(** The fallback price as a rational, from the two quotients, when the
    sum [stock + 1] does not wrap around. *)
Lemma fallback_raw (df : DataFrame) (product : Row) (maxStock : Z) :
  is_max_stock df maxStock -> maxStock <> 0%Z ->
  (0 <= stock product < 9223372036854775807)%Z ->
  f_demand_ratio (derive_features df product)
  = Finite (inject_Z (sales_7 product) / inject_Z (stock product + 1)) /\
  predict_price None df product
  = Ok (Finite
          (base_price product
           * (1 + inject_Z (sales_7 product) / inject_Z (stock product + 1)
                  * 0.3
              + - (inject_Z (stock product) / inject_Z maxStock * 0.2)))).
Proof.
  intros Hmax Hm Hs. pose proof (is_max_stock_range _ _ Hmax) as Rm.
  destruct Hmax as [Hin Hall]. pose proof (sales_7_range product) as R7.
  unfold predict_price, derive_features.
  rewrite (series_max_spec _ _ Hin Hall).
  cbn [f_demand_ratio f_inventory_level].
  rewrite (of_int_small (stock product)), (of_int_small (sales_7 product)),
    (of_int_small (stock product + 1)), (of_int_small maxStock),
    (of_int_small 1) by lia.
  rewrite !fdiv_Finite_nonzero.
  - split; reflexivity.
  - intro E. apply Hm, inject_Z_zero, E.
  - intro E. apply inject_Z_zero in E. lia.
Qed.

Lemma classify_Finite (q : Q) :
  (classify (Finite q) = High -> 2 < q) /\
  (classify (Finite q) = Medium -> 1 < q) /\
  (classify (Finite q) = Low -> q <= 1).
Proof.
  unfold classify.
  change (of_int 2) with (Finite 2). change (of_int 1) with (Finite 1).
  destruct (fgt (Finite q) (Finite 2)) eqn:E2;
    [apply fgt_Finite in E2 | apply fgt_Finite_false in E2];
    (destruct (fgt (Finite q) (Finite 1)) eqn:E1;
     [apply fgt_Finite in E1 | apply fgt_Finite_false in E1]);
    repeat split; intro H; try discriminate; lra.
Qed.

Lemma discount_ge (bp c lo : Q) (k : Z) :
  0 < bp -> lo * bp <= c -> (lo - 1) * 100 == inject_Z k / 100 ->
  (lo - 1) * 100 <= round2_Q ((c + - bp) / bp * inject_Z 100).
Proof.
  intros Hbp Hc Hk. rewrite Hk. apply round2_Q_ge_cents. rewrite <- Hk.
  assert (H : lo - 1 <= (c + - bp) / bp) by (apply Qle_shift_div_l; lra).
  unfold inject_Z. lra.
Qed.

Lemma discount_le (bp c hi : Q) (k : Z) :
  0 < bp -> c <= hi * bp -> (hi - 1) * 100 == inject_Z k / 100 ->
  round2_Q ((c + - bp) / bp * inject_Z 100) <= (hi - 1) * 100.
Proof.
  intros Hbp Hc Hk. rewrite Hk. apply round2_Q_le_cents. rewrite <- Hk.
  assert (H : (c + - bp) / bp <= hi - 1) by (apply Qle_shift_div_r; lra).
  unfold inject_Z. lra.
Qed.

(** X4: fallback discount by demand level.  Without a model, on counters
    that are not negative and at most 2^53, a base price between one
    cent and a million and a largest stock that is not zero, the product
    is priced with a discount between -20 and 50; a product of High
    demand is marked up by at least 40 percent, one of Medium demand by
    at least 10 percent, and one of Low demand by at most 30 percent. *)
Theorem fallback_discount_by_level
  (df : DataFrame) (pid : Z) (product : Row) (others : list Row)
  (maxStock : Z) :
  select_product df pid = product :: others ->
  is_max_stock df maxStock -> maxStock <> 0%Z ->
  (0 <= stock product < 9007199254740992)%Z ->
  (0 <= sales_7 product <= 9007199254740992)%Z ->
  0.01 <= base_price product <= 1000000 ->
  exists pr d,
    calculate_dynamic_price None df pid = Ok (Some pr) /\
    Pricing.discount_percent pr = Finite d /\
    -20 <= d <= 50 /\
    (Pricing.demand_level pr = High -> 40 <= d) /\
    (Pricing.demand_level pr = Medium -> 10 <= d) /\
    (Pricing.demand_level pr = Low -> d <= 30).
Proof.
  intros Hsel Hmax Hm [Hs Hs'] [H7 _] [Hbp1 _].
  assert (Hbp : 0 < base_price product) by lra.
  destruct (select_product_In _ _ _ _ Hsel) as [Hin _].
  pose proof (is_max_stock_bounds _ _ _ Hmax Hin) as Hsm.
  assert (Hs2 : (0 <= stock product < 9223372036854775807)%Z) by lia.
  destruct (fallback_raw df product maxStock Hmax Hm Hs2) as [Hdr Hraw].
  destruct (priced_clipped _ _ _ _ Hbp Hraw eq_refl) as (c & Hc & Ha & Hp).
  destruct (Ha _ eq_refl) as [Hup Hlo]. clear Ha.
  rewrite Hdr in Hp.
  set (dr := inject_Z (sales_7 product) / inject_Z (stock product + 1)) in *.
  set (il := inject_Z (stock product) / inject_Z maxStock) in *.
  assert (Hm' : 0 < inject_Z maxStock)
    by (change 0 with (inject_Z 0); rewrite <- Zlt_Qlt; lia).
  pose proof (inject_Z_nonneg _ Hs) as Hs0.
  pose proof (inject_Z_nonneg _ H7) as H7'.
  pose proof (inject_Z_succ (stock product)) as E1.
  rewrite Zle_Qle in Hsm.
  assert (Hdr0 : 0 <= dr) by (apply Qle_shift_div_l; lra).
  assert (Hil : 0 <= il <= 1)
    by (split; [apply Qle_shift_div_l | apply Qle_shift_div_r]; lra).
  set (t := 1 + dr * 0.3 + - (il * 0.2)) in *.
  assert (Ht : 0.8 <= t) by (subst t; lra).
  assert (Hc8 : 0.8 * base_price product <= c) by (destruct Hup; nra).
  do 2 eexists. split; [apply (calculate_value _ _ _ _ _ _ Hsel Hp) | ].
  cbn [Pricing.discount_percent Pricing.demand_level].
  split; [reflexivity | ]. split; [split | ].
  - apply (Qle_trans _ ((0.8 - 1) * 100)); [lra | ].
    apply (discount_ge _ _ _ (-2000)); [assumption | lra | reflexivity].
  - apply (Qle_trans _ ((1.5 - 1) * 100)); [ | lra].
    apply (discount_le _ _ _ 5000); [assumption | lra | reflexivity].
  - destruct (classify_Finite dr) as (HH & HM & HL). repeat split; intro E.
    + apply HH in E.
      apply (Qle_trans _ ((1.4 - 1) * 100)); [lra | ].
      apply (discount_ge _ _ _ 4000); [assumption | | reflexivity].
      assert (1.4 <= t) by (subst t; lra). destruct Hup; nra.
    + apply HM in E.
      apply (Qle_trans _ ((1.1 - 1) * 100)); [lra | ].
      apply (discount_ge _ _ _ 1000); [assumption | | reflexivity].
      assert (1.1 <= t) by (subst t; lra). destruct Hup; nra.
    + apply HL in E.
      apply (Qle_trans _ ((1.3 - 1) * 100)); [ | lra].
      apply (discount_le _ _ _ 3000); [assumption | | reflexivity].
      assert (t <= 1.3) by (subst t; lra). destruct Hlo; nra.
Qed.

Lemma fallback_discount_by_level_witness :
  exists pr d,
    calculate_dynamic_price None groceries 2 = Ok (Some pr) /\
    Pricing.discount_percent pr = Finite d /\
    -20 <= d <= 50 /\
    (Pricing.demand_level pr = High -> 40 <= d) /\
    (Pricing.demand_level pr = Medium -> 10 <= d) /\
    (Pricing.demand_level pr = Low -> d <= 30).
Proof.
  apply (fallback_discount_by_level groceries 2 bread [] 999).
  - reflexivity.
  - split; [vm_compute; auto 6 | repeat constructor; vm_compute; discriminate].
  - discriminate.
  - split; vm_compute; [discriminate | reflexivity].
  - split; vm_compute; discriminate.
  - split; vm_compute; discriminate.
Defined.

(** X5: the fallback price follows demand.  Without a model, between two
    products of the same table and the same base price, between one cent
    and a million, the one with at least as many sales in 7 days and at
    most as much stock is never priced lower, as long as the larger
    stock is below 2^63 - 1. *)
Theorem fallback_price_monotone
  (df : DataFrame) (pid1 pid2 : Z) (p1 p2 : Row) (o1 o2 : list Row)
  (maxStock : Z) :
  select_product df pid1 = p1 :: o1 ->
  select_product df pid2 = p2 :: o2 ->
  is_max_stock df maxStock -> maxStock <> 0%Z ->
  0.01 <= base_price p1 <= 1000000 -> base_price p1 == base_price p2 ->
  (0 <= sales_7 p1 <= sales_7 p2)%Z ->
  (0 <= stock p2 <= stock p1)%Z ->
  (stock p1 < 9223372036854775807)%Z ->
  exists pr1 pr2 a b,
    calculate_dynamic_price None df pid1 = Ok (Some pr1) /\
    calculate_dynamic_price None df pid2 = Ok (Some pr2) /\
    Pricing.dynamic_price pr1 = Finite a /\
    Pricing.dynamic_price pr2 = Finite b /\
    a <= b.
Proof.
  intros Hs1 Hs2 Hmax Hm [Hbp0 _] Heq [H7 H7'] [Hk Hk'] Hw.
  assert (Hbp : 0 < base_price p1) by lra.
  assert (Hbp2 : 0 < base_price p2) by lra.
  assert (Hk1 : (0 <= stock p1 < 9223372036854775807)%Z) by lia.
  assert (Hk2 : (0 <= stock p2 < 9223372036854775807)%Z) by lia.
  destruct (fallback_raw df p1 maxStock Hmax Hm Hk1) as [_ Hraw1].
  destruct (fallback_raw df p2 maxStock Hmax Hm Hk2) as [_ Hraw2].
  destruct (priced_clipped _ _ _ _ Hbp Hraw1 eq_refl) as (c1 & Hc1 & Ha1 & Hp1).
  destruct (priced_clipped _ _ _ _ Hbp2 Hraw2 eq_refl) as (c2 & Hc2 & Ha2 & Hp2).
  destruct (Ha1 _ eq_refl) as [_ Hlo1]. destruct (Ha2 _ eq_refl) as [Hup2 _].
  clear Ha1 Ha2.
  do 4 eexists.
  split; [apply (calculate_value _ _ _ _ _ _ Hs1 Hp1) | ].
  split; [apply (calculate_value _ _ _ _ _ _ Hs2 Hp2) | ].
  cbn [Pricing.dynamic_price]. split; [reflexivity | ].
  split; [reflexivity | ]. apply round2_Q_monotone.
  assert (Hm' : 0 < inject_Z maxStock).
  { destruct (select_product_In _ _ _ _ Hs1) as [Hin _].
    pose proof (is_max_stock_bounds _ _ _ Hmax Hin).
    change 0 with (inject_Z 0). rewrite <- Zlt_Qlt. lia. }
  pose proof (inject_Z_succ (stock p1)) as E1.
  pose proof (inject_Z_succ (stock p2)) as E2.
  pose proof (inject_Z_nonneg _ Hk) as Q2.
  pose proof (inject_Z_nonneg _ H7) as Q7.
  rewrite Zle_Qle in H7', Hk'.
  set (d1 := inject_Z (sales_7 p1) / inject_Z (stock p1 + 1)) in *.
  set (d2 := inject_Z (sales_7 p2) / inject_Z (stock p2 + 1)) in *.
  set (i1 := inject_Z (stock p1) / inject_Z maxStock) in *.
  set (i2 := inject_Z (stock p2) / inject_Z maxStock) in *.
  assert (Hd2 : 0 <= d2) by (apply Qle_shift_div_l; lra).
  assert (Ed2 : d2 * inject_Z (stock p2 + 1) == inject_Z (sales_7 p2))
    by (subst d2; field; lra).
  assert (Hd : d1 <= d2) by (apply Qle_shift_div_r; [lra | nra]).
  assert (Ei1 : i1 * inject_Z maxStock == inject_Z (stock p1))
    by (subst i1; field; lra).
  assert (Hi : i2 <= i1) by (apply Qle_shift_div_r; lra).
  set (t1 := 1 + d1 * 0.3 + - (i1 * 0.2)) in *.
  set (t2 := 1 + d2 * 0.3 + - (i2 * 0.2)) in *.
  assert (Ht : t1 <= t2) by (subst t1 t2; lra).
  assert (Hr : base_price p1 * t1 <= base_price p2 * t2) by nra.
  destruct Hlo1, Hup2; lra.
Qed.

Lemma fallback_price_monotone_witness :
  exists pr1 pr2 a b,
    calculate_dynamic_price None shelf 21 = Ok (Some pr1) /\
    calculate_dynamic_price None shelf 22 = Ok (Some pr2) /\
    Pricing.dynamic_price pr1 = Finite a /\
    Pricing.dynamic_price pr2 = Finite b /\
    a <= b.
Proof.
  apply (fallback_price_monotone shelf 21 22 oats bran [] [] 40).
  - reflexivity.
  - reflexivity.
  - split; [vm_compute; auto | repeat constructor; vm_compute; discriminate].
  - discriminate.
  - split; vm_compute; discriminate.
  - reflexivity.
  - split; vm_compute; discriminate.
  - split; vm_compute; discriminate.
  - vm_compute. reflexivity.
Defined.

(** ** Listings *)

Lemma calculate_on_row (model : option Predictor) (df : DataFrame)
  (row : Row) :
  In row (rows df) ->
  calculate_dynamic_price model df (product_id row) <> Ok None.
Proof.
  intros Hin H.
  assert (Hs : select_product df (product_id row) = []).
  { unfold calculate_dynamic_price in H.
    destruct (select_product df (product_id row)) as [ | p l];
      [reflexivity | ].
    destruct (price_product model df p); discriminate. }
  apply select_product_empty in Hs. apply Hs. exists row. auto.
Qed.

Lemma calculate_fallback_returns (df : DataFrame) (pid : Z) :
  exists r, calculate_dynamic_price None df pid = Ok r.
Proof.
  unfold calculate_dynamic_price.
  destruct (select_product df pid) as [ | p l]; [eexists; reflexivity | ].
  unfold price_product, predict_price. cbn. eexists. reflexivity.
Qed.

(** The listing loop gives one entry per line, in order. *)
Lemma price_rows_listed (model : option Predictor) (df : DataFrame)
  (l : list Row) (ps : list Product.t) :
  incl l (rows df) ->
  price_rows model df l = Ok ps ->
  Forall2 (listed model df) l ps.
Proof.
  revert ps. induction l as [ | row l IH]; intros ps Hin; cbn.
  - intro H. injection H as <-. constructor.
  - pose proof (calculate_on_row model df row (Hin row (or_introl eq_refl)))
      as Hrow.
    destruct (calculate_dynamic_price model df (product_id row))
      as [[pr | ] | e] eqn:E; cbn; try discriminate; [ | contradiction].
    destruct (price_rows model df l) as [ps' | e] eqn:E'; cbn;
      [ | discriminate].
    intro H. injection H as <-. constructor.
    + exists pr. split; [exact E | reflexivity].
    + apply IH; [ | reflexivity]. intros x Hx. apply Hin. right. exact Hx.
Qed.

Lemma price_rows_fallback_returns (df : DataFrame) (l : list Row) :
  exists ps, price_rows None df l = Ok ps.
Proof.
  induction l as [ | row l [ps IH]]; cbn; [eexists; reflexivity | ].
  destruct (calculate_fallback_returns df (product_id row)) as [r Hr].
  rewrite Hr, IH. cbn. eexists. reflexivity.
Qed.

Lemma Forall2_listed_fields (model : option Predictor) (df : DataFrame)
  (l : list Row) (ps : list Product.t) :
  Forall2 (listed model df) l ps ->
  map Product.product_id ps = map product_id l /\
  map Product.name ps = map name l /\
  map Product.category ps = map category l.
Proof.
  induction 1 as [ | row p l ps (pr & _ & ->) _ (I1 & I2 & I3)]; cbn.
  - auto.
  - rewrite I1, I2, I3. auto.
Qed.

(** X6: the full listing.  [get_all_products] either returns one entry
    per line of the table, in the order of the table, each with the
    identity of its line and the pricing of its [product_id], or fails
    with the predictor's exception; without a model it always returns. *)
Theorem get_all_products_lists_every_row
  (model : option Predictor) (df : DataFrame) :
  match get_all_products model df with
  | Ok ps =>
      Forall2 (listed model df) (rows df) ps /\
      List.length ps = List.length (rows df) /\
      map Product.product_id ps = map product_id (rows df) /\
      map Product.name ps = map name (rows df) /\
      map Product.category ps = map category (rows df)
  | Raise e => e = PredictorError /\ model <> None
  end /\
  exists ps, get_all_products None df = Ok ps.
Proof.
  split; [ | apply price_rows_fallback_returns].
  unfold get_all_products.
  destruct (price_rows model df (rows df)) as [ps | e] eqn:E.
  - pose proof (price_rows_listed model df _ ps (incl_refl _) E) as H.
    split; [exact H | ]. split.
    + symmetry. apply (Forall2_length H).
    + apply (Forall2_listed_fields _ _ _ _ H).
  - split; [apply (price_rows_raises _ _ _ _ E) | ].
    intros ->. destruct (price_rows_fallback_returns df (rows df)) as [ps H].
    congruence.
Qed.

Lemma price_rows_filter (model : option Predictor) (df : DataFrame)
  (cat : string) (l : list Row) (ps : list Product.t) :
  incl l (rows df) ->
  price_rows model df l = Ok ps ->
  price_rows model df
    (filter (fun r => String.eqb (str_lower (category r)) (str_lower cat)) l)
  = Ok (filter (in_category cat) ps).
Proof.
  revert ps. induction l as [ | row l IH]; intros ps Hin; cbn.
  - intro H. injection H as <-. reflexivity.
  - pose proof (calculate_on_row model df row (Hin row (or_introl eq_refl)))
      as Hrow.
    destruct (calculate_dynamic_price model df (product_id row))
      as [[pr | ] | e] eqn:E; cbn; try discriminate; [ | contradiction].
    destruct (price_rows model df l) as [ps' | e] eqn:E'; cbn;
      [ | discriminate].
    intro H. injection H as <-.
    assert (IH' := IH ps' (fun x Hx => Hin x (or_intror Hx)) eq_refl).
    cbn. unfold in_category at 1. cbn [Product.category].
    destruct (String.eqb _ _); cbn; rewrite ?E, IH'; reflexivity.
Qed.

(** X7: a category is a part of the full listing.  When the full listing
    succeeds and some line has the category, letter case aside,
    [get_products_by_category] returns exactly the entries of the full
    listing that have this category, in the same order. *)
Theorem category_listing_is_filtered_listing
  (model : option Predictor) (df : DataFrame) (cat : string)
  (all : list Product.t) :
  get_all_products model df = Ok all ->
  has_category df cat ->
  get_products_by_category model df cat
  = Ok (filter (in_category cat) all) /\
  filter (in_category cat) all <> [].
Proof.
  unfold get_all_products, get_products_by_category. intros Hall Hcat.
  pose proof (price_rows_filter model df cat _ all (incl_refl _) Hall) as H.
  fold (select_category df cat) in H.
  destruct (select_category df cat) as [ | row l] eqn:Hs.
  - apply select_category_empty in Hs. contradiction.
  - split; [exact H | ].
    intro E. rewrite E in H. cbn in H.
    destruct (calculate_dynamic_price model df (product_id row))
      as [[pr | ] | e] eqn:Ec; cbn in H.
    + destruct (price_rows model df l); cbn in H; discriminate.
    + apply (calculate_on_row model df row); [ | exact Ec].
      assert (Hin : In row (select_category df cat))
        by (rewrite Hs; left; reflexivity).
      apply filter_In in Hin. tauto.
    + discriminate.
Qed.

Lemma category_listing_is_filtered_listing_witness :
  get_products_by_category None groceries "dairy"
  = Ok (filter (in_category "dairy")
          (match get_all_products None groceries with
           | Ok all => all
           | Raise _ => []
           end)) /\
  filter (in_category "dairy")
    (match get_all_products None groceries with
     | Ok all => all
     | Raise _ => []
     end) <> [].
Proof.
  apply (category_listing_is_filtered_listing None groceries "dairy").
  - vm_compute. reflexivity.
  - exists milk. split; [cbn; auto | reflexivity].
Defined.

(** ** Single product *)

Lemma select_product_first (df : DataFrame) (pid : Z) (front back : list Row)
  (r : Row) :
  rows df = front ++ r :: back ->
  Forall (fun x => product_id x <> pid) front ->
  product_id r = pid ->
  select_product df pid = r :: filter (fun x => (product_id x =? pid)%Z) back.
Proof.
  intros Hrows Hfront Hr. unfold select_product. rewrite Hrows.
  rewrite filter_app. cbn.
  assert (E : filter (fun x => (product_id x =? pid)%Z) front = []).
  { apply filter_empty. rewrite Forall_forall in Hfront.
    intros x Hx. apply Z.eqb_neq. apply Hfront, Hx. }
  rewrite E. cbn. apply Z.eqb_eq in Hr. rewrite Hr. reflexivity.
Qed.

(** X8: the first line of an identifier wins.  When [r] is the first line
    of the table with the requested [product_id], whatever follows it,
    the pricing is the pricing of [r], and [get_product] reports the
    name, category and sales of [r] with that pricing. *)
Theorem first_match_wins
  (model : option Predictor) (df : DataFrame) (pid : Z)
  (front back : list Row) (r : Row) :
  rows df = front ++ r :: back ->
  Forall (fun x => product_id x <> pid) front ->
  product_id r = pid ->
  match price_product model df r with
  | Ok pr =>
      calculate_dynamic_price model df pid = Ok (Some pr) /\
      get_product model df pid
      = Ok {| Detail.product_id := pid;
              Detail.name := name r;
              Detail.category := category r;
              Detail.base_price := Finite (base_price r);
              Detail.dynamic_price := Pricing.dynamic_price pr;
              Detail.discount_percent := Pricing.discount_percent pr;
              Detail.demand_level := Pricing.demand_level pr;
              Detail.demand_ratio := Pricing.demand_ratio pr;
              Detail.stock := stock r;
              Detail.sales_7_days := sales_7 r;
              Detail.sales_30_days := sales_30 r |}
  | Raise e =>
      calculate_dynamic_price model df pid = Raise e /\
      get_product model df pid = Raise e
  end.
Proof.
  intros Hrows Hfront Hr.
  pose proof (select_product_first df pid front back r Hrows Hfront Hr) as Hs.
  unfold get_product, calculate_dynamic_price. rewrite Hs.
  destruct (price_product model df r) as [pr | e] eqn:E; cbn; [ | auto].
  split; [reflexivity | ].
  destruct (price_product_fields _ _ _ _ E) as (_ & _ & Hb & Hk).
  rewrite Hb, Hk, Hr. reflexivity.
Qed.

Lemma first_match_wins_witness :
  match price_product None
          (read_csv [milk; bread; mkRow 2 "Rolls" "Bakery" 3 5 1 4 2]) bread
  with
  | Ok pr =>
      calculate_dynamic_price None
        (read_csv [milk; bread; mkRow 2 "Rolls" "Bakery" 3 5 1 4 2]) 2
      = Ok (Some pr) /\
      get_product None
        (read_csv [milk; bread; mkRow 2 "Rolls" "Bakery" 3 5 1 4 2]) 2
      = Ok {| Detail.product_id := 2;
              Detail.name := name bread;
              Detail.category := category bread;
              Detail.base_price := Finite (base_price bread);
              Detail.dynamic_price := Pricing.dynamic_price pr;
              Detail.discount_percent := Pricing.discount_percent pr;
              Detail.demand_level := Pricing.demand_level pr;
              Detail.demand_ratio := Pricing.demand_ratio pr;
              Detail.stock := stock bread;
              Detail.sales_7_days := sales_7 bread;
              Detail.sales_30_days := sales_30 bread |}
  | Raise e =>
      calculate_dynamic_price None
        (read_csv [milk; bread; mkRow 2 "Rolls" "Bakery" 3 5 1 4 2]) 2
      = Raise e /\
      get_product None
        (read_csv [milk; bread; mkRow 2 "Rolls" "Bakery" 3 5 1 4 2]) 2
      = Raise e
  end.
Proof.
  apply (first_match_wins None
           (read_csv [milk; bread; mkRow 2 "Rolls" "Bakery" 3 5 1 4 2]) 2
           [milk] [mkRow 2 "Rolls" "Bakery" 3 5 1 4 2] bread).
  - reflexivity.
  - repeat constructor. cbn. discriminate.
  - reflexivity.
Defined.

(** X9: outcomes of [get_product].  [get_product] returns a product
    whose [product_id] is the one requested, or raises the 404 error or
    the predictor's exception: the pricing it reads is never [None], so
    no other exception leaves it.  Without a model it returns exactly
    when some line has the identifier. *)
Theorem get_product_outcomes (model : option Predictor) (df : DataFrame)
  (pid : Z) :
  match get_product model df pid with
  | Ok d =>
      Detail.product_id d = pid /\ has_product df pid /\
      exists pr,
        calculate_dynamic_price model df pid = Ok (Some pr) /\
        Detail.dynamic_price d = Pricing.dynamic_price pr /\
        Detail.discount_percent d = Pricing.discount_percent pr /\
        Detail.demand_level d = Pricing.demand_level pr /\
        Detail.demand_ratio d = Pricing.demand_ratio pr
  | Raise (HTTPException code _) => code = 404%Z /\ ~ has_product df pid
  | Raise PredictorError => has_product df pid /\ model <> None
  | Raise (TypeError _) => False
  end /\
  (has_product df pid <-> exists d, get_product None df pid = Ok d).
Proof.
  assert (Hmain :
    match get_product model df pid with
    | Ok d =>
        Detail.product_id d = pid /\ has_product df pid /\
        exists pr,
          calculate_dynamic_price model df pid = Ok (Some pr) /\
          Detail.dynamic_price d = Pricing.dynamic_price pr /\
          Detail.discount_percent d = Pricing.discount_percent pr /\
          Detail.demand_level d = Pricing.demand_level pr /\
          Detail.demand_ratio d = Pricing.demand_ratio pr
    | Raise (HTTPException code _) => code = 404%Z /\ ~ has_product df pid
    | Raise PredictorError => has_product df pid /\ model <> None
    | Raise (TypeError _) => False
    end).
  { unfold get_product, calculate_dynamic_price.
    destruct (select_product df pid) as [ | product others] eqn:Hs.
    - split; [reflexivity | apply select_product_empty, Hs].
    - destruct (select_product_In _ _ _ _ Hs) as [Hin Hid].
      assert (Hhas : has_product df pid) by (exists product; auto).
      destruct (price_product model df product) as [pr | e] eqn:E; cbn.
      + split; [exact Hid | ]. split; [exact Hhas | ].
        exists pr. repeat split.
      + rewrite (price_product_raises _ _ _ _ E). split; [exact Hhas | ].
        intros ->. unfold price_product, predict_price in E. discriminate. }
  split; [exact Hmain | ]. split.
  - intro Hhas. clear Hmain. unfold get_product, calculate_dynamic_price.
    destruct (select_product df pid) as [ | product others] eqn:Hs.
    + apply select_product_empty in Hs. contradiction.
    + unfold price_product, predict_price. cbn. eexists. reflexivity.
  - intros [d Hd]. clear Hmain. unfold get_product in Hd.
    destruct (select_product df pid) as [ | product others] eqn:Hs;
      [discriminate | ].
    destruct (select_product_In _ _ _ _ Hs) as [Hin Hid].
    exists product. auto.
Qed.

(** ** Categories *)

Lemma str_lt_compare (a b : string) : str_lt a b <-> String.compare a b = Lt.
Proof.
  unfold str_lt, String.ltb. destruct (String.compare a b); split;
    congruence.
Qed.

Lemma str_lt_trans (a b c : string) : str_lt a b -> str_lt b c -> str_lt a c.
Proof.
  rewrite !str_lt_compare.
  apply (@RelationClasses.StrictOrder_Transitive _ _
           String_as_OT.lt_strorder a b c).
Qed.

Lemma str_lt_irrefl (a : string) : ~ str_lt a a.
Proof.
  rewrite str_lt_compare. intro H.
  pose proof (String.compare_antisym a a) as E. rewrite H in E. discriminate.
Qed.

Lemma str_not_lt (a b : string) : ~ str_lt b a -> a = b \/ str_lt a b.
Proof.
  rewrite !str_lt_compare. intro H.
  pose proof (String.compare_antisym a b) as E.
  destruct (String.compare a b) eqn:C.
  - left. apply String.compare_eq_iff, C.
  - right. reflexivity.
  - exfalso. apply H. destruct (String.compare b a); cbn in E; congruence.
Qed.

Lemma sorted_lt_NoDup (l : list string) : StronglySorted str_lt l -> NoDup l.
Proof.
  induction 1 as [ | a l Hs IH Ha]; constructor; [ | exact IH].
  intro Hin. rewrite Forall_forall in Ha.
  apply (str_lt_irrefl a), Ha, Hin.
Qed.

(** Two increasing lists with the same elements are the same list. *)
Lemma sorted_lt_ext (l1 l2 : list string) :
  StronglySorted str_lt l1 -> StronglySorted str_lt l2 ->
  (forall x, In x l1 <-> In x l2) -> l1 = l2.
Proof.
  intro H1. revert l2.
  induction H1 as [ | a l1 Hs1 IH Ha]; intros l2 H2 Hext.
  - destruct l2 as [ | b l2]; [reflexivity | ].
    exfalso. apply (Hext b). left. reflexivity.
  - destruct H2 as [ | b l2 Hs2 Hb].
    + exfalso. apply (Hext a). left. reflexivity.
    + rewrite Forall_forall in Ha, Hb.
      assert (Eab : a = b).
      { destruct (proj1 (Hext a) (or_introl eq_refl)) as [E | Hin];
          [congruence | ].
        destruct (proj2 (Hext b) (or_introl eq_refl)) as [E | Hin'];
          [congruence | ].
        exfalso. apply (str_lt_irrefl a).
        apply str_lt_trans with b; [apply Ha, Hin' | apply Hb, Hin]. }
      subst b. f_equal. apply IH; [exact Hs2 | ].
      intro x. split; intro Hx.
      * destruct (proj1 (Hext x) (or_intror Hx)) as [E | Hin]; [ | exact Hin].
        subst x. exfalso. apply (str_lt_irrefl a), Ha, Hx.
      * destruct (proj2 (Hext x) (or_intror Hx)) as [E | Hin]; [ | exact Hin].
        subst x. exfalso. apply (str_lt_irrefl a), Hb, Hx.
Qed.

Lemma unique_In (l : list string) (x : string) : In x (unique l) <-> In x l.
Proof.
  induction l as [ | a l IH]; cbn; [tauto | ].
  rewrite filter_In, IH, negb_true_iff, String.eqb_neq.
  destruct (String.eqb_spec a x); split; intros; try tauto.
Qed.

Lemma unique_NoDup (l : list string) : NoDup (unique l).
Proof.
  induction l as [ | a l IH]; cbn; constructor.
  - rewrite filter_In, negb_true_iff, String.eqb_neq. tauto.
  - apply NoDup_filter, IH.
Qed.

Lemma insert_str_perm (x : string) (l : list string) :
  Permutation (insert_str x l) (x :: l).
Proof.
  induction l as [ | y l IH]; cbn; [reflexivity | ].
  destruct (String.ltb y x); [ | reflexivity].
  rewrite IH. apply perm_swap.
Qed.

Lemma sorted_perm (l : list string) : Permutation (sorted l) l.
Proof.
  induction l as [ | x l IH]; cbn; [reflexivity | ].
  rewrite insert_str_perm. constructor. exact IH.
Qed.

Lemma insert_str_sorted (x : string) (l : list string) :
  ~ In x l -> StronglySorted str_lt l ->
  StronglySorted str_lt (insert_str x l).
Proof.
  intros Hx Hs. induction Hs as [ | y l Hs IH Hy]; cbn.
  - repeat constructor.
  - destruct (String.ltb y x) eqn:E.
    + constructor; [apply IH; intro; apply Hx; right; assumption | ].
      rewrite Forall_forall in *. intros z Hz.
      apply (Permutation_in _ (insert_str_perm x l)) in Hz.
      destruct Hz as [<- | Hz]; [exact E | apply Hy, Hz].
    + assert (Hxy : str_lt x y).
      { destruct (str_not_lt x y) as [-> | H]; [ | | exact H].
        - unfold str_lt. rewrite E. discriminate.
        - exfalso. apply Hx. left. reflexivity. }
      constructor; [constructor; assumption | ].
      rewrite Forall_forall in *. intros z [<- | Hz]; [exact Hxy | ].
      apply str_lt_trans with y; [exact Hxy | apply Hy, Hz].
Qed.

Lemma sorted_sorted (l : list string) :
  NoDup l -> StronglySorted str_lt (sorted l).
Proof.
  induction 1 as [ | x l Hx Hnd IH]; cbn; [constructor | ].
  apply insert_str_sorted; [ | exact IH].
  intro Hin. apply Hx. apply (Permutation_in _ (sorted_perm l) Hin).
Qed.

(** X10: the list of categories.  [get_categories] lists exactly the
    categories that some line has, each once, in strictly increasing
    order, and [total] is the length of that list. *)
Theorem get_categories_sorted_distinct (df : DataFrame) :
  let cats := Categories.categories (get_categories df) in
  StronglySorted str_lt cats /\
  NoDup cats /\
  (forall k, In k cats <-> exists r, In r (rows df) /\ category r = k) /\
  Categories.total (get_categories df) = Z.of_nat (List.length cats).
Proof.
  cbv zeta. unfold get_categories. cbn [Categories.categories Categories.total].
  assert (Hs : StronglySorted str_lt (sorted (unique (map category (rows df)))))
    by (apply sorted_sorted, unique_NoDup).
  split; [exact Hs | ]. split; [apply sorted_lt_NoDup, Hs | ]. split.
  - intro k. split.
    + intro H. apply (Permutation_in _ (sorted_perm _)) in H.
      apply unique_In, in_map_iff in H. destruct H as (r & E & Hin).
      exists r. auto.
    + intros (r & Hin & E).
      apply (Permutation_in _ (Permutation_sym (sorted_perm _))).
      apply unique_In, in_map_iff. exists r. auto.
  - rewrite (Permutation_length (sorted_perm _)). reflexivity.
Qed.

Lemma insert_key_In (k x : string) (l : list string) :
  In x (insert_key k l) <-> x = k \/ In x l.
Proof.
  induction l as [ | y l IH]; cbn; [intuition congruence | ].
  destruct (String.compare k y) eqn:C; cbn.
  - apply String.compare_eq_iff in C. subst y. intuition congruence.
  - intuition congruence.
  - rewrite IH. intuition congruence.
Qed.

Lemma insert_key_sorted (k : string) (l : list string) :
  StronglySorted str_lt l -> StronglySorted str_lt (insert_key k l).
Proof.
  intro Hs. induction Hs as [ | y l Hs IH Hy]; cbn.
  - repeat constructor.
  - destruct (String.compare k y) eqn:C.
    + constructor; assumption.
    + apply str_lt_compare in C.
      constructor; [constructor; assumption | ].
      rewrite Forall_forall in *. intros z [<- | Hz]; [exact C | ].
      apply str_lt_trans with y; [exact C | apply Hy, Hz].
    + assert (Hyk : str_lt y k).
      { apply str_lt_compare. rewrite String.compare_antisym, C.
        reflexivity. }
      constructor; [exact IH | ].
      rewrite Forall_forall in *. intros z Hz.
      apply insert_key_In in Hz. destruct Hz as [-> | Hz];
        [exact Hyk | apply Hy, Hz].
Qed.

Lemma group_keys_sorted (df : DataFrame) :
  StronglySorted str_lt (group_keys df) /\
  forall k, In k (group_keys df) <-> In k (map category (rows df)).
Proof.
  unfold group_keys. induction (map category (rows df)) as [ | c l [IH1 IH2]];
    cbn.
  - split; [constructor | tauto].
  - split; [apply insert_key_sorted, IH1 | ].
    intro k. rewrite insert_key_In, IH2. intuition congruence.
Qed.

(** X11: the statistics cover the categories.  The keys of
    [category_statistics] in the insights are the list of
    [get_categories], in the same order. *)
Theorem category_statistics_keys (df : DataFrame) :
  map fst (Insights.category_statistics (snd (get_insights df)))
  = Categories.categories (get_categories df).
Proof.
  cbn [get_insights snd Insights.category_statistics].
  rewrite map_map. cbn [fst]. rewrite map_id.
  change (group_keys _) with (group_keys df).
  destruct (group_keys_sorted df) as [Hs Hin].
  apply sorted_lt_ext.
  - exact Hs.
  - apply sorted_sorted, unique_NoDup.
  - intro k. rewrite Hin. cbn [get_categories Categories.categories].
    split; intro H.
    + apply (Permutation_in _ (Permutation_sym (sorted_perm _))).
      apply unique_In, H.
    + apply (Permutation_in _ (sorted_perm _)) in H. apply unique_In, H.
Qed.

(** ** Statistics by category *)








(** ** Highest demand *)

Lemma filter_partition_perm {A : Type} (f : A -> bool) (l : list A) :
  Permutation (filter (fun x => negb (f x)) l ++ filter f l) l.
Proof.
  induction l as [ | a l IH]; cbn; [reflexivity | ].
  destruct (f a); cbn.
  - rewrite <- Permutation_middle. constructor. exact IH.
  - constructor. exact IH.
Qed.

Lemma StronglySorted_app_inv {A : Type} (R : A -> A -> Prop)
  (l1 l2 : list A) :
  StronglySorted R (l1 ++ l2) ->
  forall x y, In x l1 -> In y l2 -> R x y.
Proof.
  induction l1 as [ | a l1 IH]; cbn; intros Hs x y Hx Hy; [contradiction | ].
  inversion Hs as [ | ? ? Hs' Ha]; subst.
  destruct Hx as [<- | Hx].
  - rewrite Forall_forall in Ha. apply Ha, in_or_app. right. exact Hy.
  - apply IH; assumption.
Qed.

Lemma before_not_fgt (x y : Labelled) :
  before x y -> fgt (ratio y) (ratio x) = false.
Proof.
  intros [H | [[H _] | [_ H]]].
  - destruct (ratio x) as [a | | |], (ratio y) as [b | | |];
      try discriminate; try reflexivity.
    apply fgt_Finite in H. apply fgt_Finite_false. lra.
  - destruct (ratio x) as [a | | |], (ratio y) as [b | | |];
      try contradiction; try reflexivity.
    cbn in H. apply fgt_Finite_false. lra.
  - destruct (ratio y); try discriminate. reflexivity.
Qed.

(** X14: the listed products are the highest.  The lines of the table
    split into the lines of [top_demand_products] and the others, and no
    line left out has a demand ratio greater than that of a listed
    line. *)
Theorem top_demand_are_highest (df : DataFrame) :
  exists others,
    Permutation (top_demand_lines df ++ others) (demand_frame df) /\
    forall x y,
      In x (top_demand_lines df) -> In y others ->
      before x y /\ fgt (ratio y) (ratio x) = false.
Proof.
  unfold top_demand_lines. fold (demand_frame df).
  set (frame := demand_frame df).
  set (ranked := sort_desc (filter (fun x => negb (isnan (ratio x))) frame)
                 ++ filter (fun x => isnan (ratio x)) frame).
  assert (Hs : StronglySorted before ranked).
  { pose proof (nlargest_sorted (List.length ranked) frame
                  (proj2 (label_from_labels 0 _ _))) as H.
    unfold nlargest in H. fold ranked in H. rewrite firstn_all in H.
    exact H. }
  exists (skipn 10 ranked). change (nlargest 10 frame) with (firstn 10 ranked).
  split.
  - rewrite firstn_skipn. unfold ranked.
    rewrite sort_desc_perm. apply filter_partition_perm.
  - intros x y Hx Hy.
    rewrite <- (firstn_skipn 10 ranked) in Hs.
    pose proof (StronglySorted_app_inv _ _ _ Hs x y Hx Hy) as H.
    split; [exact H | apply before_not_fgt, H].
Qed.

(** X15: a listed ratio and the pricing.  For a line listed in
    [top_demand_products] that is the first of the table with its
    [product_id], the pricing reports the listed ratio rounded to two
    decimals and the demand level of the listed ratio. *)
Theorem listed_ratio_matches_pricing
  (model : option Predictor) (df : DataFrame) (x : Labelled)
  (others : list Row) (pr : Pricing.t) :
  In x (top_demand_lines df) ->
  select_product df (product_id (line x)) = line x :: others ->
  calculate_dynamic_price model df (product_id (line x)) = Ok (Some pr) ->
  Pricing.demand_ratio pr = round2 (ratio x) /\
  Pricing.demand_level pr = classify (ratio x).
Proof.
  intros Hx Hs Hc. unfold top_demand_lines in Hx.
  apply nlargest_In in Hx. unfold demand_ratio_column in Hx.
  apply label_from_line in Hx. destruct Hx as (_ & _ & ->).
  unfold calculate_dynamic_price in Hc. rewrite Hs in Hc.
  destruct (price_product model df (line x)) as [pr' | e] eqn:E;
    [ | discriminate].
  cbn in Hc. injection Hc as ->.
  destruct (price_product_fields _ _ _ _ E) as (Hl & Hr & _). auto.
Qed.

Lemma listed_ratio_matches_pricing_witness :
  Pricing.demand_ratio
    (Pricing.mk (Finite 10) (Finite 15.00) (Finite 50.00) Medium
       (Finite 2.00) 9)
  = round2 (ratio (mkLabelled 1 bread (Finite (20 # 10)))) /\
  Pricing.demand_level
    (Pricing.mk (Finite 10) (Finite 15.00) (Finite 50.00) Medium
       (Finite 2.00) 9)
  = classify (ratio (mkLabelled 1 bread (Finite (20 # 10)))).
Proof.
  apply (listed_ratio_matches_pricing None groceries
           (mkLabelled 1 bread (Finite (20 # 10))) []).
  - vm_compute. auto 10.
  - reflexivity.
  - vm_compute. reflexivity.
Defined.

(** ** Totals and alerts *)

(** X17: the low-stock alerts.  Every alert is a line whose stock is under
    10, every such line of the table has its alert, and the alerts keep
    the order of the table. *)
Theorem low_stock_alerts_exact (df : DataFrame) :
  let alerts := Insights.low_stock_alerts (snd (get_insights df)) in
  Forall (fun a => (LowStock.stock a < 10)%Z) alerts /\
  (forall r, In r (rows df) -> (stock r < 10)%Z ->
     In (LowStock.mk (product_id r) (name r) (stock r)) alerts) /\
  (forall r, In r (rows df) -> (10 <= stock r)%Z ->
     forall a, In a alerts -> LowStock.stock a <> stock r) /\
  map LowStock.product_id alerts
  = map product_id (filter (fun r => (stock r <? 10)%Z) (rows df)).
Proof.
  cbv zeta. cbn [get_insights snd Insights.low_stock_alerts rows].
  assert (Hall : Forall (fun a => (LowStock.stock a < 10)%Z)
                   (map (fun r => LowStock.mk (product_id r) (name r) (stock r))
                      (filter (fun r => (stock r <? 10)%Z) (rows df)))).
  { rewrite Forall_forall. intros a Ha. apply in_map_iff in Ha.
    destruct Ha as (r & <- & Hr). apply filter_In in Hr.
    destruct Hr as [_ Hr]. apply Z.ltb_lt in Hr. exact Hr. }
  split; [exact Hall | ]. split; [ | split].
  - intros r Hin Hlt. apply in_map_iff. exists r. split; [reflexivity | ].
    apply filter_In. split; [exact Hin | apply Z.ltb_lt, Hlt].
  - intros r _ Hge a Ha E. rewrite Forall_forall in Hall.
    specialize (Hall a Ha). lia.
  - rewrite map_map. reflexivity.
Qed.

(** ** Training and inference *)

Lemma training_features_rows (m : np_float) (l : list Row) :
  frame6
    (series_div (as_float (map sales_7 l))
       (as_float (int_series_add (map stock l) 1)))
    (series_div_scalar (as_float (map stock l)) m)
    (series_div (as_float (map sales_30 l))
       (as_float (int_series_add (map sales_7 l) 1)))
    (series_div (as_float (map sales_30 l))
       (series_add_scalar
          (series_mul (map (fun r => Finite (base_price r)) l)
             (as_float (map stock l)))
          (of_int 1)))
    (scalar_div_series (of_int 1) (as_float (int_series_add (map stock l) 1)))
    (as_float (map day l))
  = map (fun product =>
           {| f_demand_ratio :=
                fdiv (of_int (sales_7 product)) (of_int (stock product + 1));
              f_inventory_level := fdiv (of_int (stock product)) m;
              f_sales_trend :=
                fdiv (of_int (sales_30 product))
                  (of_int (sales_7 product + 1));
              f_popularity :=
                fdiv (of_int (sales_30 product))
                  (fadd (fmul (Finite (base_price product))
                           (of_int (stock product))) (of_int 1));
              f_scarcity := fdiv (of_int 1) (of_int (stock product + 1));
              f_day := of_int (day product) |}) l.
Proof.
  unfold as_float, int_series_add, series_div_scalar, scalar_div_series,
    series_add_scalar.
  induction l as [ | r l IH]; [reflexivity | ].
  cbn [map series_div series_mul frame6]. rewrite IH. reflexivity.
Qed.

(** X18: training and inference see the same features.  The frame of
    features built column by column in [model.py] is, line by line, the
    feature vector that [calculate_dynamic_price] derives for that line
    and hands to the scaler; it has one line per line of the table, as
    has the target column. *)
Theorem training_features_match_inference (df : DataFrame) :
  training_features df = map (derive_features df) (rows df) /\
  List.length (training_features df) = List.length (rows df) /\
  List.length (training_target df) = List.length (rows df) /\
  map f_demand_ratio (training_features df) = demand_ratio_column df.
Proof.
  assert (E : training_features df = map (derive_features df) (rows df)).
  { unfold training_features. cbv zeta.
    rewrite training_features_rows. reflexivity. }
  split; [exact E | ]. rewrite E. split; [apply length_map | ].
  split; [apply length_map | ].
  rewrite map_map. reflexivity.
Qed.

(** ** Direct prediction *)

Lemma round2_Q_comp (p q : Q) : p == q -> round2_Q p == round2_Q q.
Proof.
  intro H. unfold round2_Q.
  rewrite (rint_comp (p * 100) (q * 100)) by (rewrite H; reflexivity).
  reflexivity.
Qed.

(** X19: direct prediction and product pricing.  Without a model the
    direct prediction fails with the 500 error.  With a model, sending
    the features derived for a product gives the dynamic price of that
    product whenever the model's price lies within the clip bounds of a
    positive base price; the direct prediction itself is never
    clipped. *)
Theorem direct_prediction_agrees_within_bounds
  (predictor : Predictor) (df : DataFrame) (pid : Z)
  (product : Row) (others : list Row) (x : Q) :
  select_product df pid = product :: others ->
  0 < base_price product ->
  predictor (derive_features df product) = Some (Finite x) ->
  (forall request,
     PricePrediction.predict_price None request
     = Raise (HTTPException 500 "Model not loaded")) /\
  PricePrediction.predict_price (Some predictor) (request_of df product)
  = Ok (PricePrediction.mkResponse (Finite (round2_Q x)) "high") /\
  (0.5 * base_price product <= x <= 1.5 * base_price product ->
   exists pr p,
     calculate_dynamic_price (Some predictor) df pid = Ok (Some pr) /\
     Pricing.dynamic_price pr = Finite p /\
     p == round2_Q x).
Proof.
  intros Hs Hbp Hx. split; [reflexivity | ]. split.
  - unfold PricePrediction.predict_price, request_of. cbv zeta.
    cbn [PricePrediction.demand_ratio PricePrediction.inventory_level
         PricePrediction.sales_trend PricePrediction.popularity
         PricePrediction.scarcity PricePrediction.day].
    change (mkFeatures _ _ _ _ _ _) with (derive_features df product).
    rewrite Hx. reflexivity.
  - intro Hin.
    assert (Hraw : predict_price (Some predictor) df product = Ok (Finite x))
      by (unfold predict_price; rewrite Hx; reflexivity).
    destruct (priced_clipped _ _ _ _ Hbp Hraw eq_refl) as (c & Hc & Ha & Hp).
    destruct (Ha _ eq_refl) as [Hup Hlo].
    do 2 eexists. split; [apply (calculate_value _ _ _ _ _ _ Hs Hp) | ].
    cbn [Pricing.dynamic_price]. split; [reflexivity | ].
    apply round2_Q_comp. destruct Hup, Hlo; lra.
Qed.

Lemma direct_prediction_agrees_within_bounds_witness :
  (forall request,
     PricePrediction.predict_price None request
     = Raise (HTTPException 500 "Model not loaded")) /\
  PricePrediction.predict_price (Some twelve) (request_of groceries bread)
  = Ok (PricePrediction.mkResponse (Finite (round2_Q 12)) "high") /\
  (0.5 * base_price bread <= 12 <= 1.5 * base_price bread ->
   exists pr p,
     calculate_dynamic_price (Some twelve) groceries 2 = Ok (Some pr) /\
     Pricing.dynamic_price pr = Finite p /\
     p == round2_Q 12).
Proof.
  apply (direct_prediction_agrees_within_bounds twelve groceries 2 bread []).
  - reflexivity.
  - vm_compute. reflexivity.
  - reflexivity.
Defined.

(** ** Saturation of the fallback price *)



(** ** Outcomes of the category listing *)

(** X21: outcomes of [get_products_by_category].  The listing of a
    category returns a non-empty list with one entry per line of the
    category, all in that category, or raises the 404 error when no line
    has the category, or the predictor's exception; nothing else.
    Without a model it returns exactly when some line has the
    category. *)
Theorem category_listing_outcomes
  (model : option Predictor) (df : DataFrame) (cat : string) :
  match get_products_by_category model df cat with
  | Ok ps =>
      Forall2 (listed model df) (select_category df cat) ps /\
      ps <> [] /\
      Forall (fun p => in_category cat p = true) ps
  | Raise (HTTPException code _) => code = 404%Z /\ ~ has_category df cat
  | Raise PredictorError => has_category df cat /\ model <> None
  | Raise (TypeError _) => False
  end /\
  (has_category df cat
   <-> exists ps, get_products_by_category None df cat = Ok ps).
Proof.
  assert (Hincl : incl (select_category df cat) (rows df))
    by (intros x Hx; apply filter_In in Hx; tauto).
  split.
  - unfold get_products_by_category.
    destruct (select_category df cat) as [ | row l] eqn:Hs.
    + split; [reflexivity | apply select_category_empty, Hs].
    + assert (Hhas : has_category df cat).
      { assert (Hin : In row (select_category df cat))
          by (rewrite Hs; left; reflexivity).
        apply filter_In in Hin. destruct Hin as [Hin E].
        apply String.eqb_eq in E. exists row. auto. }
      destruct (price_rows model df (row :: l)) as [ps | e] eqn:E.
      * pose proof (price_rows_listed _ _ _ _ Hincl E) as HF.
        split; [exact HF | ]. split.
        -- intros ->. inversion HF.
        -- assert (Hcat : Forall
                     (fun r => String.eqb (str_lower (category r))
                                 (str_lower cat) = true) (row :: l)).
           { rewrite <- Hs. rewrite Forall_forall. intros x Hx.
             apply filter_In in Hx. tauto. }
           clear E Hs Hincl. induction HF as [ | r p rs ps' (pr & _ & ->) _ IH];
             [constructor | ].
           inversion Hcat; subst. constructor; [assumption | ].
           apply IH. assumption.
      * rewrite (price_rows_raises _ _ _ _ E). split; [exact Hhas | ].
        intros ->. destruct (price_rows_fallback_returns df (row :: l)).
        congruence.
  - unfold get_products_by_category. split.
    + intro Hhas.
      destruct (select_category df cat) as [ | row l] eqn:Hs.
      * apply select_category_empty in Hs. contradiction.
      * apply price_rows_fallback_returns.
    + intros [ps H].
      destruct (select_category df cat) as [ | row l] eqn:Hs;
        [discriminate | ].
      assert (Hin : In row (select_category df cat))
        by (rewrite Hs; left; reflexivity).
      apply filter_In in Hin. destruct Hin as [Hin E].
      apply String.eqb_eq in E. exists row. auto.
Qed.
